(** * City-Zen backend: the gamification and carbon-accounting rules

    A shallow embedding of the points/level ledger ([User.add_points]), the
    usage comparator ([Bill.get_usage_comparison]), the carbon calculator
    ([calculate_carbon_savings]), the task oracle ([verify_task_completion])
    and the two request handlers that mutate the ledger ([claim_reward],
    [manual_entry]), followed by the properties the specification states
    about them.

    Conventions of the embedding.
    - A MongoDB collection is a list of documents in insertion order;
      a query is a boolean predicate; [find_one] and [update_one] act on the
      first matching document.
    - Python [int] is [Z]; Python [float] is the kernel's binary64 [float];
      a JSON number that may be either is [Py.num].  The [$set] of
      [add_points] is encoded as BSON does it: an int outside the signed
      64-bit range makes the write raise ([Bson]).
    - A string is the sequence of its UTF-8 bytes.
    - A Python exception is a value [Py.Raise e]; a handler's
      [try ... except Exception] is [try_except].  Writes made before an
      exception is raised stay in the store, as they do in the program.
    - Documents carry the fields the rules read or write.  The bookkeeping
      fields [_id] and [updated_at], and the profile fields of a user (name,
      password hash, followers), are not represented. *)

From Stdlib Require Import ZArith List String Bool Lia Floats.
From Stdlib Require Import Permutation Sorted.
Import ListNotations.

Set Warnings "-inexact-float".
Local Open Scope string_scope.
Local Open Scope Z_scope.

(* ================================================================== *)
(** * Python values and built-ins used by the rules *)
(* ================================================================== *)

Module Py.

(** The exceptions that the modelled code paths can raise. *)
Inductive exn : Set :=
| AttributeError   (* attribute access on None *)
| KeyError         (* missing dict key *)
| IndexError       (* list index out of range *)
| ValueError       (* int(nan) *)
| OverflowError    (* int(inf); an int that BSON cannot hold *)
| PyMongoError.    (* a failed write to the document store *)

Inductive result (A : Type) : Type :=
| Ok (a : A)
| Raise (e : exn).
Arguments Ok {A} a.
Arguments Raise {A} e.

(** A number that is an [int] or a [float] at run time. *)
Inductive num : Set :=
| PInt (z : Z)
| PFloat (f : float).

(** [n / d] rounded to the nearest integer, ties to even ([0 <= n], [0 < d]). *)
Definition round_half_even (n d : Z) : Z :=
  let q := n / d in
  let r := n mod d in
  match 2 * r ?= d with
  | Lt => q
  | Gt => q + 1
  | Eq => if Z.even q then q else q + 1
  end.

(** [round(x, ndigits)] on a float, for [0 <= ndigits]: CPython rounds the
    exact binary value of [x] to [ndigits] decimals, ties to even, and
    converts that decimal back to the nearest double.  NaN, the infinities
    and the zeros round to themselves; past 323 digits so does every float. *)
Definition round (x : float) (ndigits : nat) : float :=
  if (323 <? Z.of_nat ndigits) then x else
  match Prim2SF x with
  | S754_finite s m e =>
      let p := 10 ^ Z.of_nat ndigits in
      let n := if 0 <=? e then Zpos m * p * 2 ^ e
               else round_half_even (Zpos m * p) (2 ^ (- e)) in
      match n with
      | Zpos n' =>
          SF2Prim (SFdiv prec emax (S754_finite s n' 0)
                                   (S754_finite false (Z.to_pos p) 0))
      | _ => SF2Prim (S754_zero s)
      end
  | _ => x
  end.

(** [int(x)] on a float: truncation toward zero; raises on NaN and on the
    infinities. *)
Definition int_of_float (x : float) : result Z :=
  match Prim2SF x with
  | S754_zero _ => Ok 0
  | S754_finite s m e =>
      let a := if 0 <=? e then Zpos m * 2 ^ e else Zpos m / 2 ^ (- e) in
      Ok (if s then - a else a)
  | S754_infinity _ => Raise OverflowError
  | S754_nan => Raise ValueError
  end.

Definition int (v : num) : result Z :=
  match v with
  | PInt z => Ok z
  | PFloat f => int_of_float f
  end.

Definition abs (v : num) : num :=
  match v with
  | PInt z => PInt (Z.abs z)
  | PFloat f => PFloat (PrimFloat.abs f)
  end.

(** The exact comparison of an [int] with a [float]; [None] when the float
    is NaN. *)
Definition Zcompare_float (z : Z) (f : float) : option comparison :=
  match Prim2SF f with
  | S754_nan => None
  | S754_infinity s => Some (if s then Gt else Lt)
  | S754_zero _ => Some (z ?= 0)
  | S754_finite s m e =>
      let v := if s then Zneg m else Zpos m in
      if 0 <=? e then Some (z ?= v * 2 ^ e)
      else Some (z * 2 ^ (- e) ?= v)
  end.

(** [a >= b] on numbers of either kind. *)
Definition ge (a b : num) : bool :=
  match a, b with
  | PInt x, PInt y => y <=? x
  | PFloat x, PFloat y => (y <=? x)%float
  | PInt x, PFloat y =>
      match Zcompare_float x y with
      | Some Gt | Some Eq => true
      | _ => false
      end
  | PFloat x, PInt y =>
      match Zcompare_float y x with
      | Some Lt | Some Eq => true
      | _ => false
      end
  end.

(** Truth value of [d.get(key)] for a field holding a string or None. *)
Definition truthy (s : option string) : bool :=
  match s with
  | Some (String _ _) => true
  | _ => false
  end.

(** [x in l] for a list of strings. *)
Definition contains (x : string) (l : list string) : bool :=
  existsb (String.eqb x) l.

(** [d.get(k)] on a dict literal, kept as an association list in
    declaration order. *)
Fixpoint dict_get {V : Type} (d : list (string * V)) (k : string) : option V :=
  match d with
  | [] => None
  | (k', v) :: d' => if String.eqb k k' then Some v else dict_get d' k
  end.

(** [d[k]] on such a dict. *)
Definition getitem {V : Type} (d : list (string * V)) (k : string)
  : result V :=
  match dict_get d k with
  | Some v => Ok v
  | None => Raise KeyError
  end.

(** [list(d.values())]. *)
Definition values {V : Type} (d : list (string * V)) : list V := map snd d.

(** [l[0]]. *)
Definition first {V : Type} (l : list V) : result V :=
  match l with
  | v :: _ => Ok v
  | [] => Raise IndexError
  end.

(** A value held by a request body or by a dict a handler builds: a string,
    a float or None. *)
Inductive value : Type :=
| VStr (s : string)
| VFloat (x : float)
| VNone.

(** [bool(v)]: a string is true when it is not empty, a float when it is
    not a zero (NaN is true), None is false. *)
Definition bool_of (v : value) : bool :=
  match v with
  | VStr EmptyString => false
  | VStr (String _ _) => true
  | VFloat x => negb (x =? 0)%float
  | VNone => false
  end.

(** The one-byte characters [str.isspace] accepts. *)
Definition isspace1 (a : N) : bool :=
  ((9 <=? a) && (a <=? 13) || (28 <=? a) && (a <=? 32))%N.

(** The two-byte ones: U+0085 and U+00A0. *)
Definition isspace2 (a b : N) : bool :=
  ((a =? 194) && ((b =? 133) || (b =? 160)))%N.

(** The three-byte ones: U+1680, U+2000 to U+200A, U+2028, U+2029, U+202F,
    U+205F and U+3000. *)
Definition isspace3 (a b c : N) : bool :=
  ((a =? 225) && (b =? 154) && (c =? 128)
   || (a =? 226) && (b =? 128)
      && ((128 <=? c) && (c <=? 138) || (c =? 168) || (c =? 169)
          || (c =? 175))
   || (a =? 226) && (b =? 129) && (c =? 159)
   || (a =? 227) && (b =? 128) && (c =? 128))%N.

(** [s.strip() == ""]: the string holds nothing but characters that
    [str.isspace] accepts. *)
Fixpoint blank (s : string) : bool :=
  match s with
  | EmptyString => true
  | String a s1 =>
      if isspace1 (Ascii.N_of_ascii a) then blank s1 else
      match s1 with
      | EmptyString => false
      | String b s2 =>
          if isspace2 (Ascii.N_of_ascii a) (Ascii.N_of_ascii b) then blank s2
          else
          match s2 with
          | EmptyString => false
          | String c s3 =>
              if isspace3 (Ascii.N_of_ascii a) (Ascii.N_of_ascii b)
                   (Ascii.N_of_ascii c)
              then blank s3
              else false
          end
      end
  end.

End Py.

(* ================================================================== *)
(** * models/database.py *)
(* ================================================================== *)

(** ** BaseModel: the operations every collection shares *)

Module BaseModel.
Section Collection.
Context {D : Type}.

Definition find_one (query : D -> bool) (c : list D) : option D :=
  List.find query c.

Definition find (query : D -> bool) (c : list D) : list D :=
  List.filter query c.

Definition insert_one (document : D) (c : list D) : list D :=
  (c ++ [document])%list.

(** The first matching document is rewritten; no match, no change. *)
Fixpoint update_one (query : D -> bool) (update : D -> D) (c : list D)
  : list D :=
  match c with
  | [] => []
  | d :: c' =>
      if query d then update d :: c' else d :: update_one query update c'
  end.

Definition count_documents (query : D -> bool) (c : list D) : Z :=
  Z.of_nat (List.length (List.filter query c)).

(** [cursor.sort([(key, DESCENDING)])]: documents with equal keys keep
    their collection order. *)
Fixpoint insert_desc (key : D -> Z) (x : D) (l : list D) : list D :=
  match l with
  | [] => [x]
  | y :: l' =>
      if key y <=? key x then x :: y :: l'
      else y :: insert_desc key x l'
  end.

Fixpoint sort_desc (key : D -> Z) (l : list D) : list D :=
  match l with
  | [] => []
  | x :: l' => insert_desc key x (sort_desc key l')
  end.

(** [cursor.limit(n)]. *)
Definition limit (n : nat) (l : list D) : list D := firstn n l.
End Collection.
End BaseModel.

(** The integers a document can hold.  BSON stores an int in 32 or 64 bits,
    and pymongo raises OverflowError when asked to encode any other; the
    encoding comes before the request is sent, so nothing is written. *)
Module Bson.
Definition int64_min : Z := -9223372036854775808.
Definition int64_max : Z := 9223372036854775807.

Definition fits_int64 (z : Z) : bool :=
  (int64_min <=? z) && (z <=? int64_max).
End Bson.

(** ** User *)

Module User.
Record doc : Type := mk {
  user_id : string;
  email : string;
  points : Z;
  level : Z;
  badges : list string;
  carbon_footprint_saved : float
}.

Definition by_user_id (uid : string) (d : doc) : bool :=
  String.eqb (user_id d) uid.

Definition by_email (e : string) (d : doc) : bool :=
  String.eqb (email d) e.

(** [{'$set': {'points': p, 'level': l}}] *)
Definition set_points_level (p l : Z) (d : doc) : doc :=
  mk (user_id d) (email d) p l (badges d) (carbon_footprint_saved d).

(** [{'$set': {'points': p}}], with ['badges': b] when [b] is given. *)
Definition set_points_badges (p : Z) (b : option (list string)) (d : doc)
  : doc :=
  mk (user_id d) (email d) p (level d)
     (match b with Some bs => bs | None => badges d end)
     (carbon_footprint_saved d).

(** [{'$inc': {'carbon_footprint_saved': x}}] *)
Definition inc_carbon (x : float) (d : doc) : doc :=
  mk (user_id d) (email d) (points d) (level d) (badges d)
     (carbon_footprint_saved d + x)%float.

(** [User.add_points]: the returned flag, or the exception raised, and the
    users collection after.  Python's [//] floors, as [Z.div] does for a
    positive divisor.  The [update_one] raises, and writes nothing, when
    one of the two integers of its [$set] does not fit in 64 bits. *)
Definition add_points (c : list doc) (uid : string) (pts : Z)
  : Py.result bool * list doc :=
  match BaseModel.find_one (by_user_id uid) c with
  | Some user =>
      let new_points := points user + pts in
      let new_level := Z.max 1 (new_points / 100) in
      if Bson.fits_int64 new_points && Bson.fits_int64 new_level then
        (Py.Ok true,
         BaseModel.update_one (by_user_id uid)
           (set_points_level new_points new_level) c)
      else (Py.Raise Py.OverflowError, c)
  | None => (Py.Ok false, c)
  end.
End User.

(** ** Post and Report: the fields the task oracle reads *)

Module Post.
Record doc : Type := mk {
  post_id : string;
  user_id : string;
  likes_count : Z
}.
Definition by_user_id (uid : string) (d : doc) : bool :=
  String.eqb (user_id d) uid.
End Post.

Module Report.
Record doc : Type := mk {
  report_id : string;
  user_id : string;
  likes_count : Z
}.
Definition by_user_id (uid : string) (d : doc) : bool :=
  String.eqb (user_id d) uid.
End Report.

(** ** Bill *)

Module Bill.
Record doc : Type := mk {
  bill_id : string;
  user_id : string;
  type : string;
  usage_amount : float;
  usage_unit : string;
  cost : float;
  billing_period : string;
  file_id : option string;
  created_at : Z
}.

(** The dict [get_usage_comparison] returns.  [percentage_change] is a
    float on the division branch and the int literal 0 on the other. *)
Record comparison : Type := mk_comparison {
  current_usage : float;
  previous_usage : float;
  usage_difference : float;
  cost_difference : float;
  percentage_change : Py.num
}.

Definition by_user_id (uid : string) (d : doc) : bool :=
  String.eqb (user_id d) uid.

Definition by_user_and_type (uid ty : string) (d : doc) : bool :=
  String.eqb (user_id d) uid && String.eqb (type d) ty.

(** [find(query, sort=[('created_at', DESCENDING)], limit=2)] *)
Definition last_two (c : list doc) (uid ty : string) : list doc :=
  BaseModel.limit 2
    (BaseModel.sort_desc created_at
       (BaseModel.find (by_user_and_type uid ty) c)).

Definition get_usage_comparison (c : list doc) (uid bill_type : string)
  : option comparison :=
  match last_two c uid bill_type with
  | current :: previous :: _ =>
      let usage_diff := (usage_amount current - usage_amount previous)%float in
      let cost_diff := (cost current - cost previous)%float in
      Some (mk_comparison
              (usage_amount current)
              (usage_amount previous)
              usage_diff
              cost_diff
              (if (0 <? usage_amount previous)%float
               then Py.PFloat (usage_diff / usage_amount previous * 100)%float
               else Py.PInt 0))
  | _ => None
  end.
End Bill.

(** ** Reward *)

Module Reward.
Record doc : Type := mk {
  reward_id : string;
  title : string;
  description : string;
  points_required : Z;
  badge_name : option string;
  task_type : string;
  task_count : Py.num
}.
Definition by_reward_id (rid : string) (d : doc) : bool :=
  String.eqb (reward_id d) rid.
End Reward.

(** ** Notification *)

Module Notification.
Inductive message : Type :=
| YouClaimed (reward_title : string)
| YouSaved (carbon_saved : float) (bill_type : string).

Inductive data : Type :=
| RewardData (reward_id : string) (badge_name : option string)
| AchievementData (carbon_saved : float) (points_earned : Z).

Record doc : Type := mk {
  notification_id : string;
  user_id : string;
  title : string;
  msg : message;
  type : string;
  is_read : bool;
  payload : data
}.
End Notification.

(* ================================================================== *)
(** * utils/carbon_calculator.py *)
(* ================================================================== *)

(** Carbon emission factors (kg CO2 per unit), per bill type and unit, in
    declaration order.  The MWh factor is the int literal 500 in the source;
    it is never selected. *)
Definition emission_factors : list (string * list (string * float)) :=
  [ ("electricity", [ ("kWh", 0.5%float); ("MWh", 500%float) ]);
    ("water", [ ("liters", 0.0003%float); ("cubic_meters", 0.3%float);
                ("gallons", 0.001%float) ]);
    ("gas", [ ("cubic_meters", 2.0%float); ("therms", 5.3%float);
              ("kWh", 0.2%float) ]) ].

Definition default_factors : list (string * float) :=
  [ ("electricity", 0.5%float); ("water", 0.0003%float); ("gas", 2.0%float) ].

Definition calculate_carbon_savings (bill_type : string)
  (usage_reduction : float) : Py.result float :=
  match
    match Py.dict_get emission_factors bill_type with
    | Some units => Py.first (Py.values units)
    | None =>
        Py.Ok (match Py.dict_get default_factors bill_type with
               | Some f => f
               | None => 0.5%float
               end)
    end
  with
  | Py.Ok factor =>
      let carbon_saved := (usage_reduction * factor)%float in
      Py.Ok (Py.round carbon_saved 2)
  | Py.Raise e => Py.Raise e
  end.

(* ================================================================== *)
(** * The document store and the handlers' monad *)
(* ================================================================== *)

Record DB : Type := mkDB {
  users : list User.doc;
  rewards : list Reward.doc;
  posts : list Post.doc;
  reports : list Report.doc;
  bills : list Bill.doc;
  notifications : list Notification.doc
}.

Definition with_users (us : list User.doc) (db : DB) : DB :=
  mkDB us (rewards db) (posts db) (reports db) (bills db) (notifications db).

Definition with_bills (bs : list Bill.doc) (db : DB) : DB :=
  mkDB (users db) (rewards db) (posts db) (reports db) bs (notifications db).

Definition with_notifications (ns : list Notification.doc) (db : DB) : DB :=
  mkDB (users db) (rewards db) (posts db) (reports db) (bills db) ns.

(** What a request gets from outside the store: the clock reading used for
    [created_at], the fresh ObjectIds, and whether the notifications
    collection accepts a given document (a refused insert raises). *)
Record Env : Type := mkEnv {
  now : Z;
  new_bill_id : string;
  new_notification_id : string;
  notification_sink : Notification.doc -> bool
}.

(** A computation over the store that may raise; the store it leaves is
    kept in both cases. *)
Definition M (A : Type) : Type := DB -> Py.result A * DB.

Definition ret {A : Type} (a : A) : M A := fun db => (Py.Ok a, db).

Definition raise {A : Type} (e : Py.exn) : M A := fun db => (Py.Raise e, db).

Definition bind {A B : Type} (m : M A) (k : A -> M B) : M B :=
  fun db =>
    match m db with
    | (Py.Ok a, db') => k a db'
    | (Py.Raise e, db') => (Py.Raise e, db')
    end.

Definition get : M DB := fun db => (Py.Ok db, db).

Definition modify (f : DB -> DB) : M unit := fun db => (Py.Ok tt, f db).

(** Lifts a pure computation that may raise. *)
Definition lift {A : Type} (r : Py.result A) : M A := fun db => (r, db).

(** [try: body  except Exception as e: handler(e)] *)
Definition try_except {A : Type} (body : M A) (handler : Py.exn -> A)
  : DB -> A * DB :=
  fun db =>
    match body db with
    | (Py.Ok a, db') => (a, db')
    | (Py.Raise e, db') => (handler e, db')
    end.

Declare Scope handler_scope.
Delimit Scope handler_scope with handler.
Notation "x <- m ;; k" := (bind m (fun x => k))
  (at level 61, m at next level, right associativity) : handler_scope.
Notation "m ;;; k" := (bind m (fun _ => k))
  (at level 61, right associativity) : handler_scope.

(** [Notification.create_notification] *)
Definition create_notification (env : Env) (uid title : string)
  (msg : Notification.message) (type : string) (payload : Notification.data)
  : M unit :=
  fun db =>
    let notification :=
      Notification.mk (new_notification_id env) uid title msg type false
        payload in
    if notification_sink env notification
    then (Py.Ok tt,
          with_notifications
            (BaseModel.insert_one notification (notifications db)) db)
    else (Py.Raise Py.PyMongoError, db).

(* ================================================================== *)
(** * blueprints/rewards.py *)
(* ================================================================== *)

(** utils/responses.py: the two envelopes, over a handler-specific payload. *)
Inductive error_message : Type :=
| UserNotFound
| RewardNotFound
| InsufficientPoints (need have : Z)
| RewardAlreadyClaimed
| TaskNotCompleted (description : string)
| FailedToClaimReward (e : Py.exn)
| InvalidBillType
| FailedToRecordBill (e : Py.exn)
| RequestBodyRequired
| MissingRequiredFields (missing_fields : list string).

Inductive response (P : Type) : Type :=
| success_response (data : P) (status_code : Z)
| error_response (message : error_message) (status_code : Z).
Arguments success_response {P} data status_code.
Arguments error_response {P} message status_code.

Record claim_payload : Type := mk_claim_payload {
  reward_title : string;
  badge_earned : option string;
  points_spent : Z;
  remaining_points : Z
}.

(** [sum(d.get('likes_count', 0) for d in docs)] *)
Definition sum_likes {D : Type} (likes : D -> Z) (docs : list D) : Z :=
  fold_left (fun acc d => acc + likes d) docs 0.

(** The body of the [try] in [verify_task_completion]. *)
Definition verify_task_completion_body (db : DB) (user_id : string)
  (reward : Reward.doc) : Py.result bool :=
  let task_type := Reward.task_type reward in
  let task_count := Reward.task_count reward in
  if String.eqb task_type "posts_created" then
    let posts_count :=
      BaseModel.count_documents (Post.by_user_id user_id) (posts db) in
    Py.Ok (Py.ge (Py.PInt posts_count) task_count)
  else if String.eqb task_type "reports_created" then
    let reports_count :=
      BaseModel.count_documents (Report.by_user_id user_id) (reports db) in
    Py.Ok (Py.ge (Py.PInt reports_count) task_count)
  else if String.eqb task_type "bills_uploaded" then
    let bills_count :=
      BaseModel.count_documents (Bill.by_user_id user_id) (bills db) in
    Py.Ok (Py.ge (Py.PInt bills_count) task_count)
  else if String.eqb task_type "carbon_saved" then
    match BaseModel.find_one (User.by_user_id user_id) (users db) with
    | None => Py.Raise Py.AttributeError
    | Some user =>
        let carbon_saved := User.carbon_footprint_saved user in
        Py.Ok (Py.ge (Py.PFloat carbon_saved) task_count)
    end
  else if String.eqb task_type "likes_received" then
    let posts := BaseModel.find (Post.by_user_id user_id) (posts db) in
    let reports := BaseModel.find (Report.by_user_id user_id) (reports db) in
    let total_likes := sum_likes Post.likes_count posts in
    let total_likes := total_likes + sum_likes Report.likes_count reports in
    Py.Ok (Py.ge (Py.PInt total_likes) task_count)
  else if String.eqb task_type "level_reached" then
    match BaseModel.find_one (User.by_user_id user_id) (users db) with
    | None => Py.Raise Py.AttributeError
    | Some user => Py.Ok (Py.ge (Py.PInt (User.level user)) task_count)
    end
  else
    Py.Ok true.

Definition verify_task_completion (db : DB) (user_id : string)
  (reward : Reward.doc) : bool :=
  match verify_task_completion_body db user_id reward with
  | Py.Ok b => b
  | Py.Raise _ => false
  end.

Local Open Scope handler_scope.

(** The body of the [try] in [claim_reward]. *)
Definition claim_reward_body (env : Env) (current_user_email : string)
  (reward_id : string) : M (response claim_payload) :=
  db <- get ;;
  match BaseModel.find_one (User.by_email current_user_email) (users db) with
  | None => ret (error_response UserNotFound 404)
  | Some current_user =>
    match BaseModel.find_one (Reward.by_reward_id reward_id) (rewards db) with
    | None => ret (error_response RewardNotFound 404)
    | Some reward =>
      let user_points := User.points current_user in
      if user_points <? Reward.points_required reward then
        ret (error_response
               (InsufficientPoints (Reward.points_required reward) user_points)
               400)
      else
      let user_badges := User.badges current_user in
      if Py.truthy (Reward.badge_name reward)
         && match Reward.badge_name reward with
            | Some b => Py.contains b user_badges
            | None => false
            end
      then ret (error_response RewardAlreadyClaimed 400)
      else
      let task_completed :=
        verify_task_completion db (User.user_id current_user) reward in
      if negb task_completed then
        ret (error_response (TaskNotCompleted (Reward.description reward)) 400)
      else
      let new_points := user_points - Reward.points_required reward in
      let new_badges :=
        match Reward.badge_name reward with
        | Some b =>
            if Py.truthy (Reward.badge_name reward)
            then Some (user_badges ++ [b])%list
            else None
        | None => None
        end in
      modify (fun db =>
        with_users
          (BaseModel.update_one (User.by_user_id (User.user_id current_user))
             (User.set_points_badges new_points new_badges) (users db)) db) ;;;
      create_notification env (User.user_id current_user) "Reward Claimed!"
        (Notification.YouClaimed (Reward.title reward)) "reward"
        (Notification.RewardData reward_id (Reward.badge_name reward)) ;;;
      ret (success_response
             (mk_claim_payload (Reward.title reward) (Reward.badge_name reward)
                (Reward.points_required reward) new_points)
             200)
    end
  end.

Definition claim_reward (env : Env) (current_user_email reward_id : string)
  : DB -> response claim_payload * DB :=
  try_except (claim_reward_body env current_user_email reward_id)
    (fun e => error_response (FailedToClaimReward e) 500).

(* ================================================================== *)
(** * blueprints/bills.py *)
(* ================================================================== *)

(** The JSON object of a manual entry's request.  [type], [usage_unit] and
    [billing_period] hold strings; a field that is absent or null is listed
    as missing by the validation exactly as an empty one is, and is given
    here as the empty string.  [usage_amount] and [cost] are given by the
    float that the handler's [float(...)] makes of them: the field holds a
    JSON number (0 when absent), or a text that [float] accepts with a
    value other than zero, such as ['-inf'].  [file_id] is optional.  A
    request whose body is not a JSON object with at least one entry is not
    a [BillData.t]. *)
Module BillData.
Record t : Type := mk {
  type : string;
  usage_amount : float;
  usage_unit : string;
  cost : float;
  billing_period : string;
  file_id : option string
}.

(** The body as the dict [request.get_json()] returns. *)
Definition json (data : t) : list (string * Py.value) :=
  [ ("type", Py.VStr (type data));
    ("usage_amount", Py.VFloat (usage_amount data));
    ("usage_unit", Py.VStr (usage_unit data));
    ("cost", Py.VFloat (cost data));
    ("billing_period", Py.VStr (billing_period data));
    ("file_id", match file_id data with
                | Some f => Py.VStr f
                | None => Py.VNone
                end) ].
End BillData.

(** utils/validators.py: [validate_required_fields]; None when nothing is
    missing. *)
Definition validate_required_fields (data : list (string * Py.value))
  (required_fields : list string) : option error_message :=
  match data with
  | [] => Some RequestBodyRequired
  | _ :: _ =>
      let missing_fields :=
        List.filter
          (fun field =>
             match Py.dict_get data field with
             | None => true
             | Some v =>
                 negb (Py.bool_of v)
                 || match v with
                    | Py.VStr s => Py.blank s
                    | _ => false
                    end
             end)
          required_fields in
      match missing_fields with
      | [] => None
      | _ :: _ => Some (MissingRequiredFields missing_fields)
      end
  end.

Definition required_fields : list string :=
  [ "type"; "usage_amount"; "usage_unit"; "cost"; "billing_period" ].

Definition valid_types : list string := [ "water"; "electricity"; "gas" ].

Definition update_users (f : list User.doc -> list User.doc) : M unit :=
  modify (fun db => with_users (f (users db)) db).

(** [user_model.add_points(user_id, points)] as a step of a handler. *)
Definition user_model_add_points (user_id : string) (points : Z) : M bool :=
  fun db =>
    let (r, us) := User.add_points (users db) user_id points in
    (r, with_users us db).

(** The crediting step of [manual_entry], run after the bill is stored. *)
Definition credit_reduction (env : Env) (user_id bill_type : string)
  (comparison : option Bill.comparison) : M unit :=
  match comparison with
  | Some c =>
      if (Bill.usage_difference c <? 0)%float then
        carbon_saved <-
          lift (calculate_carbon_savings bill_type
                  (PrimFloat.abs (Bill.usage_difference c))) ;;
        update_users
          (BaseModel.update_one (User.by_user_id user_id)
             (User.inc_carbon carbon_saved)) ;;;
        n <- lift (Py.int (Py.abs (Bill.percentage_change c))) ;;
        let points_earned := Z.min 50 n in
        user_model_add_points user_id points_earned ;;;
        create_notification env user_id "Great Job!"
          (Notification.YouSaved carbon_saved bill_type) "achievement"
          (Notification.AchievementData carbon_saved points_earned)
      else ret tt
  | None => ret tt
  end.

(** The dict [bill_data] that [manual_entry] builds.  [create_bill] copies
    its entries into a dict of its own, which is the one that receives
    ['bill_id']. *)
Definition bill_data (current_user : User.doc) (data : BillData.t)
  : list (string * Py.value) :=
  [ ("user_id", Py.VStr (User.user_id current_user));
    ("type", Py.VStr (BillData.type data));
    ("usage_amount", Py.VFloat (BillData.usage_amount data));
    ("usage_unit", Py.VStr (BillData.usage_unit data));
    ("cost", Py.VFloat (BillData.cost data));
    ("billing_period", Py.VStr (BillData.billing_period data));
    ("file_id", match BillData.file_id data with
                | Some f => Py.VStr f
                | None => Py.VNone
                end) ].

(** The body of the [try] in [manual_entry].  The success payload is built
    from [bill_data['bill_id']]. *)
Definition manual_entry_body (env : Env) (current_user_email : string)
  (data : BillData.t) : M (response Py.value) :=
  db <- get ;;
  match BaseModel.find_one (User.by_email current_user_email) (users db) with
  | None => ret (error_response UserNotFound 404)
  | Some current_user =>
      match validate_required_fields (BillData.json data) required_fields with
      | Some validation_error => ret (error_response validation_error 400)
      | None =>
      if negb (Py.contains (BillData.type data) valid_types) then
        ret (error_response InvalidBillType 400)
      else
      let bill_data := bill_data current_user data in
      let bill :=
        Bill.mk (new_bill_id env) (User.user_id current_user)
          (BillData.type data) (BillData.usage_amount data)
          (BillData.usage_unit data) (BillData.cost data)
          (BillData.billing_period data) (BillData.file_id data) (now env) in
      modify (fun db => with_bills (BaseModel.insert_one bill (bills db)) db) ;;;
      db <- get ;;
      let comparison :=
        Bill.get_usage_comparison (bills db) (User.user_id current_user)
          (BillData.type data) in
      credit_reduction env (User.user_id current_user) (BillData.type data)
        comparison ;;;
      bill_id <- lift (Py.getitem bill_data "bill_id") ;;
      ret (success_response bill_id 201)
      end
  end.

Definition manual_entry (env : Env) (current_user_email : string)
  (data : BillData.t) : DB -> response Py.value * DB :=
  try_except (manual_entry_body env current_user_email data)
    (fun e => error_response (FailedToRecordBill e) 500).

Local Close Scope handler_scope.

(* ================================================================== *)
(** * More of the same files: cursors, listings, deletions, toggles *)
(* ================================================================== *)

(** ** BaseModel and pymongo operations used by the handlers below *)

Module Cursor.
Section Collection.
Context {D : Type}.

(** [cursor.sort([(key, ASCENDING)])]: documents with equal keys keep their
    collection order. *)
Fixpoint insert_asc (key : D -> Z) (x : D) (l : list D) : list D :=
  match l with
  | [] => [x]
  | y :: l' =>
      if key x <=? key y then x :: y :: l'
      else y :: insert_asc key x l'
  end.

Fixpoint sort_asc (key : D -> Z) (l : list D) : list D :=
  match l with
  | [] => []
  | x :: l' => insert_asc key x (sort_asc key l')
  end.

(** [delete_one(query)]: the first matching document is removed; the pair
    is [deleted_count] and the collection after. *)
Fixpoint delete_one (query : D -> bool) (c : list D) : Z * list D :=
  match c with
  | [] => (0, [])
  | d :: c' =>
      if query d then (1, c')
      else let (n, c'') := delete_one query c' in (n, d :: c'')
  end.

(** [collection.update_many(query, update)] for an update that changes
    every document it matches: the pair is [modified_count] and the
    collection after. *)
Definition update_many (query : D -> bool) (update : D -> D) (c : list D)
  : Z * list D :=
  (Z.of_nat (List.length (List.filter query c)),
   map (fun d => if query d then update d else d) c).

(** [enumerate(l, start)] *)
Fixpoint enumerate (start : Z) (l : list D) : list (Z * D) :=
  match l with
  | [] => []
  | x :: l' => (start, x) :: enumerate (start + 1) l'
  end.

(** [l[start:stop]] with Python's treatment of negative and oversized
    indices. *)
Definition slice (l : list D) (start stop : Z) : list D :=
  let len := Z.of_nat (List.length l) in
  let adjust i := Z.max 0 (Z.min len (if i <? 0 then i + len else i)) in
  firstn (Z.to_nat (adjust stop - adjust start))
    (skipn (Z.to_nat (adjust start)) l).
End Collection.
End Cursor.

(** utils/responses.py with the message kept as the handler's text; a
    message built from a caught exception keeps its prefix and the
    exception. *)
Inductive reply_message : Type :=
| Text (s : string)
| Failed (what : string) (e : Py.exn).

Inductive reply (P : Type) : Type :=
| reply_success (data : P) (status_code : Z)
| reply_error (m : reply_message) (status_code : Z).
Arguments reply_success {P} data status_code.
Arguments reply_error {P} m status_code.

(** ** models/database.py: likes, verifications, read marks *)

(** A post with the fields [like_post] reads and writes. *)
Module PostLikes.
Record doc : Type := mk {
  post_id : string;
  user_id : string;
  likes : list string;
  likes_count : Z
}.

Definition by_post_id (pid : string) (d : doc) : bool :=
  String.eqb (post_id d) pid.

(** [{'$pull': {'likes': uid}, '$inc': {'likes_count': -1}}] *)
Definition unlike (uid : string) (d : doc) : doc :=
  mk (post_id d) (user_id d)
     (List.filter (fun x => negb (String.eqb x uid)) (likes d))
     (likes_count d + -1).

(** [{'$push': {'likes': uid}, '$inc': {'likes_count': 1}}] *)
Definition like (uid : string) (d : doc) : doc :=
  mk (post_id d) (user_id d) (likes d ++ [uid])%list (likes_count d + 1).

(** [Post.like_post] *)
Definition like_post (c : list doc) (pid uid : string) : bool * list doc :=
  match BaseModel.find_one (by_post_id pid) c with
  | None => (false, c)
  | Some post =>
      if Py.contains uid (likes post)
      then (true, BaseModel.update_one (by_post_id pid) (unlike uid) c)
      else (true, BaseModel.update_one (by_post_id pid) (like uid) c)
  end.

(** The fields of the post the task oracle reads. *)
Definition to_post (d : doc) : Post.doc :=
  Post.mk (post_id d) (user_id d) (likes_count d).
End PostLikes.

(** A report with the fields [verify_report] reads and writes. *)
Module ReportMarks.
Record doc : Type := mk {
  report_id : string;
  user_id : string;
  verifications : list string;
  verification_count : Z
}.

Definition by_report_id (rid : string) (d : doc) : bool :=
  String.eqb (report_id d) rid.

(** [{'$push': {'verifications': uid}, '$inc': {'verification_count': 1}}] *)
Definition verify (uid : string) (d : doc) : doc :=
  mk (report_id d) (user_id d) (verifications d ++ [uid])%list
     (verification_count d + 1).

(** [Report.verify_report] *)
Definition verify_report (c : list doc) (rid uid : string)
  : bool * list doc :=
  match BaseModel.find_one (by_report_id rid) c with
  | None => (false, c)
  | Some report =>
      if negb (Py.contains uid (verifications report))
      then (true, BaseModel.update_one (by_report_id rid) (verify uid) c)
      else (true, c)
  end.
End ReportMarks.

(** ** blueprints/notifications.py *)

Definition unread_of (uid : string) (d : Notification.doc) : bool :=
  String.eqb (Notification.user_id d) uid && negb (Notification.is_read d).

(** [{'$set': {'is_read': True}}] *)
Definition set_read (d : Notification.doc) : Notification.doc :=
  Notification.mk (Notification.notification_id d) (Notification.user_id d)
    (Notification.title d) (Notification.msg d) (Notification.type d) true
    (Notification.payload d).

(** The unread count [get_notifications] reports. *)
Definition unread_count (uid : string) (db : DB) : Z :=
  BaseModel.count_documents (unread_of uid) (notifications db).

(** [mark_all_notifications_read]; the success payload is the number the
    message reports. *)
Definition mark_all_notifications_read (current_user_email user_id : string)
  (db : DB) : reply Z * DB :=
  match BaseModel.find_one (User.by_email current_user_email) (users db) with
  | None => (reply_error (Text "User not found") 404, db)
  | Some current_user =>
      if negb (String.eqb (User.user_id current_user) user_id) then
        (reply_error (Text "Unauthorized to mark these notifications") 403, db)
      else
        let (modified_count, ns) :=
          Cursor.update_many (unread_of user_id) set_read (notifications db) in
        (reply_success modified_count 200, with_notifications ns db)
  end.

(** ** blueprints/rewards.py: the read-only endpoints *)

Module RewardData.
Record t : Type := mk {
  reward : Reward.doc;
  eligible : bool;
  already_claimed : bool
}.
End RewardData.

Module RewardsListing.
Record t : Type := mk {
  rewards : list RewardData.t;
  user_points : Z;
  total_rewards : Z
}.
End RewardsListing.

(** [get_rewards]: every reward document is returned with all its fields,
    so an entry carries the document itself beside the two flags. *)
Definition get_rewards (current_user_email : string) (db : DB)
  : reply RewardsListing.t :=
  match BaseModel.find_one (User.by_email current_user_email) (users db) with
  | None => reply_error (Text "User not found") 404
  | Some current_user =>
      let rewards :=
        Cursor.sort_asc Reward.points_required
          (BaseModel.find (fun _ => true) (rewards db)) in
      let user_points := User.points current_user in
      let user_badges := User.badges current_user in
      let reward_list :=
        map (fun reward =>
               RewardData.mk reward
                 (Reward.points_required reward <=? user_points)
                 (match Reward.badge_name reward with
                  | Some b =>
                      if Py.truthy (Reward.badge_name reward)
                      then Py.contains b user_badges
                      else false
                  | None => false
                  end))
            rewards in
      reply_success
        (RewardsListing.mk reward_list user_points
           (Z.of_nat (List.length reward_list)))
        200
  end.

Module Progress.
Record activities : Type := mk_activities {
  posts_created : Z;
  reports_created : Z;
  bills_uploaded : Z;
  likes_received : Z
}.

Record t : Type := mk {
  user_id : string;
  current_level : Z;
  current_points : Z;
  carbon_footprint_saved : float;
  activity : activities;
  badges_earned : list string;
  badges_count : Z
}.
End Progress.

(** [get_reward_progress] *)
Definition get_reward_progress (current_user_email user_id : string)
  (db : DB) : reply Progress.t :=
  match BaseModel.find_one (User.by_email current_user_email) (users db) with
  | None => reply_error (Text "User not found") 404
  | Some current_user =>
      if negb (String.eqb (User.user_id current_user) user_id) then
        reply_error (Text "Unauthorized to access this progress") 403
      else
        let posts_count :=
          BaseModel.count_documents (Post.by_user_id user_id) (posts db) in
        let reports_count :=
          BaseModel.count_documents (Report.by_user_id user_id) (reports db) in
        let bills_count :=
          BaseModel.count_documents (Bill.by_user_id user_id) (bills db) in
        let posts := BaseModel.find (Post.by_user_id user_id) (posts db) in
        let reports :=
          BaseModel.find (Report.by_user_id user_id) (reports db) in
        let total_likes := sum_likes Post.likes_count posts in
        let total_likes :=
          total_likes + sum_likes Report.likes_count reports in
        match BaseModel.find_one (User.by_user_id user_id) (users db) with
        | None =>
            reply_error
              (Failed "Failed to get reward progress" Py.AttributeError) 500
        | Some user =>
            reply_success
              (Progress.mk user_id (User.level user) (User.points user)
                 (User.carbon_footprint_saved user)
                 (Progress.mk_activities posts_count reports_count
                    bills_count total_likes)
                 (User.badges user)
                 (Z.of_nat (List.length (User.badges user))))
              200
        end
  end.

Module Ranked.
Record t : Type := mk {
  rank : Z;
  user_id : string;
  points : Z;
  level : Z;
  badges_count : Z;
  carbon_saved : float
}.
End Ranked.

(** [get_rewards_leaderboard]: the entries and [total_users]. *)
Definition get_rewards_leaderboard (db : DB) : reply (list Ranked.t * Z) :=
  let users :=
    BaseModel.limit 50
      (BaseModel.sort_desc User.points
         (BaseModel.find (fun _ => true) (users db))) in
  let leaderboard :=
    map (fun iu : Z * User.doc =>
           let (i, user) := iu in
           Ranked.mk i (User.user_id user) (User.points user)
             (User.level user) (Z.of_nat (List.length (User.badges user)))
             (User.carbon_footprint_saved user))
        (Cursor.enumerate 1 users) in
  reply_success (leaderboard, Z.of_nat (List.length leaderboard)) 200.

(** ** blueprints/bills.py: comparison and deletion *)

Inductive impact : Type :=
| Saved (carbon_saved : float)
| Increased (carbon_increased : float).

Module ComparisonView.
Record t : Type := mk {
  comparison : Bill.comparison;
  environmental_impact : impact;
  bill_type : string
}.
End ComparisonView.


Definition by_bill_id (bid : string) (d : Bill.doc) : bool :=
  String.eqb (Bill.bill_id d) bid.

(** [delete_bill] *)
Definition delete_bill (current_user_email bill_id : string) (db : DB)
  : reply string * DB :=
  match BaseModel.find_one (User.by_email current_user_email) (users db) with
  | None => (reply_error (Text "User not found") 404, db)
  | Some current_user =>
      match BaseModel.find_one (by_bill_id bill_id) (bills db) with
      | None => (reply_error (Text "Bill not found") 404, db)
      | Some bill =>
          if negb (String.eqb (Bill.user_id bill) (User.user_id current_user))
          then (reply_error (Text "Unauthorized to delete this bill") 403, db)
          else
            let (deleted_count, bs) :=
              Cursor.delete_one (by_bill_id bill_id) (bills db) in
            if deleted_count =? 0
            then (reply_error (Text "Failed to delete bill") 500,
                  with_bills bs db)
            else (reply_success "Bill deleted successfully" 200,
                  with_bills bs db)
      end
  end.

(** ** blueprints/reports.py: report creation *)

(** The JSON body of a report; every field is optional. *)
Module ReportBody.
Record t : Type := mk {
  title : option string;
  category : option string;
  location : option string;
  description : option string;
  evidence_id : option string
}.
End ReportBody.

Definition with_reports (rs : list Report.doc) (db : DB) : DB :=
  mkDB (users db) (rewards db) (posts db) rs (bills db) (notifications db).

(** [create_report]: [data] is None when the request carries no JSON
    object, and [data.get] then raises before anything is written.  The
    stored report is given with the fields the oracle reads; [report_id] is
    the fresh ObjectId.  The success payload is the report id. *)
Definition create_report (report_id current_user_email : string)
  (data : option ReportBody.t) (db : DB) : reply string * DB :=
  match BaseModel.find_one (User.by_email current_user_email) (users db) with
  | None => (reply_error (Text "User not found") 404, db)
  | Some current_user =>
      match data with
      | None =>
          (reply_error (Failed "Failed to create report" Py.AttributeError)
             500, db)
      | Some _ =>
          let uid := User.user_id current_user in
          let db1 :=
            with_reports
              (BaseModel.insert_one (Report.mk report_id uid 0) (reports db))
              db in
          match User.add_points (users db1) uid 20 with
          | (Py.Raise e, us) =>
              (reply_error (Failed "Failed to create report" e) 500,
               with_users us db1)
          | (Py.Ok _, us) =>
              let db2 := with_users us db1 in
              let db3 :=
                with_users
                  (BaseModel.update_one (User.by_user_id uid)
                     (User.inc_carbon 5.0%float) (users db2)) db2 in
              (reply_success report_id 201, db3)
          end
      end
  end.

(** ** utils/pagination.py *)

Module Page.
Record t (A : Type) : Type := mk {
  data : list A;
  page : Z;
  limit : Z;
  total : Z;
  pages : Z;
  has_next : bool;
  has_prev : bool
}.
Arguments mk {A} data page limit total pages has_next has_prev.
Arguments data {A} t.
Arguments page {A} t.
Arguments limit {A} t.
Arguments total {A} t.
Arguments pages {A} t.
Arguments has_next {A} t.
Arguments has_prev {A} t.
End Page.

(** [paginate_results]; None stands for the ZeroDivisionError that the
    ceiling division raises when [limit] is 0. *)
Definition paginate_results {A : Type} (results : list A) (page limit : Z)
  : option (Page.t A) :=
  let total := Z.of_nat (List.length results) in
  let start := (page - 1) * limit in
  let stop := start + limit in
  let paginated_results := Cursor.slice results start stop in
  if limit =? 0 then None
  else
    Some (Page.mk paginated_results page limit total
            ((total + limit - 1) / limit) (stop <? total) (0 <? start)).

(* ================================================================== *)
(** * Definitions used by the statements *)
(* ================================================================== *)

(** The badge a reward awards: its [badge_name] when that is a non-empty
    string (the truth test the handler applies). *)
Definition reward_badge (reward : Reward.doc) : option string :=
  if Py.truthy (Reward.badge_name reward) then Reward.badge_name reward
  else None.

(** The handler's third check: the reward has a badge and the user holds it. *)
Definition already_claimed (user : User.doc) (reward : Reward.doc) : bool :=
  match reward_badge reward with
  | Some b => Py.contains b (User.badges user)
  | None => false
  end.

(** The single [$set] a successful claim applies to the user's document. *)
Definition claim_update (user : User.doc) (reward : Reward.doc)
  : User.doc -> User.doc :=
  User.set_points_badges
    (User.points user - Reward.points_required reward)
    (match reward_badge reward with
     | Some b => Some (User.badges user ++ [b])%list
     | None => None
     end).

(** The notification a successful claim emits. *)
Definition claim_notification (env : Env) (user : User.doc)
  (reward_id : string) (reward : Reward.doc) : Notification.doc :=
  Notification.mk (new_notification_id env) (User.user_id user)
    "Reward Claimed!" (Notification.YouClaimed (Reward.title reward))
    "reward" false
    (Notification.RewardData reward_id (Reward.badge_name reward)).

(** The answer of a successful claim. *)
Definition claim_success (user : User.doc) (reward : Reward.doc)
  : response claim_payload :=
  success_response
    (mk_claim_payload (Reward.title reward) (Reward.badge_name reward)
       (Reward.points_required reward)
       (User.points user - Reward.points_required reward))
    200.

(** The factor the specification names for a resource type: the
    first-declared unit's factor of a recognised type, the electricity
    factor for anything else. *)
Definition first_declared_factor (resource_type : string) : float :=
  if String.eqb resource_type "electricity" then 0.5%float
  else if String.eqb resource_type "water" then 0.0003%float
  else if String.eqb resource_type "gas" then 2.0%float
  else 0.5%float.

(** Newest first: every document is at least as recent as those after it. *)
Definition newest_first {D : Type} (key : D -> Z) : list D -> Prop :=
  StronglySorted (fun a b => key b <= key a).

(** The percentage as the specification words it: the quotient times 100,
    and 0 when the previous usage equals zero. *)
Definition claimed_percentage_change (cmp : Bill.comparison) : Py.num :=
  if (Bill.previous_usage cmp =? 0)%float then Py.PInt 0
  else Py.PFloat (Bill.usage_difference cmp / Bill.previous_usage cmp * 100)%float.

(** The task types the oracle dispatches on. *)
Definition recognized_task_types : list string :=
  [ "posts_created"; "reports_created"; "bills_uploaded"; "carbon_saved";
    "likes_received"; "level_reached" ].

(** The bill document a manual entry stores. *)
Definition entered_bill (env : Env) (user : User.doc) (data : BillData.t)
  : Bill.doc :=
  Bill.mk (new_bill_id env) (User.user_id user) (BillData.type data)
    (BillData.usage_amount data) (BillData.usage_unit data)
    (BillData.cost data) (BillData.billing_period data)
    (BillData.file_id data) (now env).

(** The comparison the handler computes once the bill is stored. *)
Definition entry_comparison (env : Env) (db : DB) (user : User.doc)
  (data : BillData.t) : option Bill.comparison :=
  Bill.get_usage_comparison
    (BaseModel.insert_one (entered_bill env user data) (bills db))
    (User.user_id user) (BillData.type data).

(** The carbon credit of a comparison that shows a reduction. *)
Definition carbon_credit (bill_type : string) (c : Bill.comparison) : float :=
  Py.round
    (PrimFloat.abs (Bill.usage_difference c)
     * first_declared_factor bill_type)%float 2.

(** [add_points] as the specification words it: no error path, and no
    bound on the points. *)
Definition claimed_add_points (c : list User.doc) (uid : string)
  (delta : Z) : bool * list User.doc :=
  match BaseModel.find_one (User.by_user_id uid) c with
  | Some user =>
      (true,
       BaseModel.update_one (User.by_user_id uid)
         (User.set_points_level (User.points user + delta)
            (Z.max 1 ((User.points user + delta) / 100))) c)
  | None => (false, c)
  end.

(** The entry [get_rewards] builds for a reward. *)
Definition listed_entry (user : User.doc) (reward : Reward.doc)
  : RewardData.t :=
  RewardData.mk reward
    (Reward.points_required reward <=? User.points user)
    (already_claimed user reward).

(** The row of the leaderboard for a user at a rank. *)
Definition ranked (iu : Z * User.doc) : Ranked.t :=
  Ranked.mk (fst iu) (User.user_id (snd iu)) (User.points (snd iu))
    (User.level (snd iu))
    (Z.of_nat (List.length (User.badges (snd iu))))
    (User.carbon_footprint_saved (snd iu)).

(** A post's like bookkeeping is consistent when nobody is listed twice and
    the counter is the number of likers. *)
Definition likes_consistent (d : PostLikes.doc) : Prop :=
  NoDup (PostLikes.likes d)
  /\ PostLikes.likes_count d = Z.of_nat (List.length (PostLikes.likes d)).

(** The quantity the task oracle sums for an owner, over posts kept with
    their likers. *)
Definition likes_total (owner : string) (c : list PostLikes.doc) : Z :=
  sum_likes Post.likes_count
    (BaseModel.find (Post.by_user_id owner) (map PostLikes.to_post c)).

(** A report's verification bookkeeping is consistent when nobody is listed
    twice and the counter is the number of verifiers. *)
Definition verifications_consistent (d : ReportMarks.doc) : Prop :=
  NoDup (ReportMarks.verifications d)
  /\ ReportMarks.verification_count d
     = Z.of_nat (List.length (ReportMarks.verifications d)).

(** The ledger invariant over a whole users collection. *)
Definition ledger_invariant (c : list User.doc) : Prop :=
  Forall (fun u => User.level u = Z.max 1 (User.points u / 100)) c.

(** The items of a page, empty where [paginate_results] raises. *)
Definition page_data {A : Type} (results : list A) (limit page : Z) : list A :=
  match paginate_results results page limit with
  | Some p => Page.data p
  | None => []
  end.

(* ================================================================== *)
(** * A worked store *)
(* ================================================================== *)

Definition alice : User.doc :=
  User.mk "u-alice" "alice@example.org" 300 3 [ "Recycler" ] 12.5%float.

Definition bob : User.doc :=
  User.mk "u-bob" "bob@example.org" 40 1 [ "Eco Hero" ] 0%float.

Definition reward_hero : Reward.doc :=
  Reward.mk "r-hero" "Eco Hero" "Reach level 3" 250 (Some "Eco Hero")
    "level_reached" (Py.PInt 3).

Definition reward_saver : Reward.doc :=
  Reward.mk "r-saver" "Carbon Saver" "Save 50 kg of CO2" 100 None
    "carbon_saved" (Py.PInt 50).

Definition bill_march : Bill.doc :=
  Bill.mk "b-1" "u-alice" "electricity" 100%float "kWh" 30%float "2024-03"
    None 1000.

Definition posts_example : list Post.doc :=
  [ Post.mk "p-1" "u-alice" 3; Post.mk "p-2" "u-bob" 1;
    Post.mk "p-3" "u-alice" 4 ].

Definition reports_example : list Report.doc :=
  [ Report.mk "q-1" "u-alice" 2 ].

Definition db_example : DB :=
  mkDB [ alice; bob ] [ reward_hero; reward_saver ] posts_example
    reports_example [ bill_march ] [].

(** A reward that only names a task: type and threshold. *)
Definition task (task_type : string) (task_count : Py.num) : Reward.doc :=
  Reward.mk "r-task" "Task" "A task" 10 None task_type task_count.

Definition env_up : Env := mkEnv 2000 "b-new" "n-new" (fun _ => true).


(** A net-metered account: the earlier bill records a net export of
    100 kWh, the later one a consumption of 80 kWh. *)
Definition bills_net_metering : list Bill.doc :=
  [ Bill.mk "b-1" "u-alice" "electricity" (-100)%float "kWh" (-12)%float
      "2024-03" None 1000;
    Bill.mk "b-2" "u-alice" "electricity" 80%float "kWh" 24%float
      "2024-04" None 2000 ].

(** A request whose usage amount is the float minus infinity, which
    [float('-inf')] yields for the JSON string '-inf'. *)
Definition entry_minus_infinity : BillData.t :=
  BillData.mk "electricity" PrimFloat.neg_infinity "kWh" 20%float "2024-04"
    None.

Definition entry_reduction : BillData.t :=
  BillData.mk "electricity" 80%float "kWh" 24%float "2024-04" None.

(** Posts of the worked examples, with their likers. *)
Definition liked_posts : list PostLikes.doc :=
  [ PostLikes.mk "p-1" "u-alice" [ "u-bob"; "u-carol" ] 2;
    PostLikes.mk "p-2" "u-bob" [] 0 ].

(** Reports of the worked examples, with their verifiers. *)
Definition verified_reports : list ReportMarks.doc :=
  [ ReportMarks.mk "q-1" "u-alice" [ "u-bob" ] 1 ].

(** An inbox with two unread notifications of different users and one
    that was read. *)
Definition inbox_example : list Notification.doc :=
  [ Notification.mk "n-1" "u-alice" "Reward Claimed!"
      (Notification.YouClaimed "Eco Hero") "reward" false
      (Notification.RewardData "r-hero" (Some "Eco Hero"));
    Notification.mk "n-2" "u-bob" "Great Job!"
      (Notification.YouSaved 10%float "electricity") "achievement" false
      (Notification.AchievementData 10%float 20);
    Notification.mk "n-3" "u-alice" "Great Job!"
      (Notification.YouSaved 4%float "water") "achievement" true
      (Notification.AchievementData 4%float 7) ].

(* ================================================================== *)
(** * Collection lemmas *)
(* ================================================================== *)

Section CollectionFacts.
Context {D : Type}.
Variables (query : D -> bool) (update : D -> D).

Lemma update_one_no_match (c : list D) :
  BaseModel.find_one query c = None ->
  BaseModel.update_one query update c = c.
Proof.
  induction c as [|d c IH]; simpl; [reflexivity|].
  destruct (query d); [discriminate|].
  intros H. now rewrite IH.
Qed.

Lemma update_one_length (c : list D) :
  List.length (BaseModel.update_one query update c) = List.length c.
Proof.
  induction c as [|d c IH]; simpl; [reflexivity|].
  destruct (query d); simpl; congruence.
Qed.

(** An update that keeps the queried key rewrites exactly the document
    [find_one] returns. *)
Lemma find_one_update_one (c : list D) :
  (forall d, query (update d) = query d) ->
  BaseModel.find_one query (BaseModel.update_one query update c)
  = option_map update (BaseModel.find_one query c).
Proof.
  intros Hkey.
  induction c as [|d c IH]; simpl; [reflexivity|].
  destruct (query d) eqn:Hq; simpl.
  - now rewrite Hkey, Hq.
  - now rewrite Hq.
Qed.

(** Documents the query does not select are left as they were. *)
Lemma update_one_other (c : list D) (d : D) :
  In d c -> query d = false -> In d (BaseModel.update_one query update c).
Proof.
  induction c as [|x c IH]; simpl; [tauto|].
  intros [->|Hin] Hq.
  - rewrite Hq. now left.
  - destruct (query x); [now right | right; auto].
Qed.

Lemma find_one_some (c : list D) (d : D) :
  BaseModel.find_one query c = Some d -> In d c /\ query d = true.
Proof. apply find_some. Qed.

Lemma find_one_exists (c : list D) (d : D) :
  In d c -> query d = true -> exists d0, BaseModel.find_one query c = Some d0.
Proof.
  intros Hin Hq.
  destruct (BaseModel.find_one query c) as [d0|] eqn:Hf; [now exists d0|].
  pose proof (find_none query c Hf d Hin). congruence.
Qed.
End CollectionFacts.

Lemma by_user_id_set_points_level uid p l d :
  User.by_user_id uid (User.set_points_level p l d) = User.by_user_id uid d.
Proof. reflexivity. Qed.

Lemma by_user_id_set_points_badges uid p b d :
  User.by_user_id uid (User.set_points_badges p b d) = User.by_user_id uid d.
Proof. reflexivity. Qed.

Lemma by_user_id_inc_carbon uid x d :
  User.by_user_id uid (User.inc_carbon x d) = User.by_user_id uid d.
Proof. reflexivity. Qed.

(* ================================================================== *)
(** * The points and level ledger *)
(* ================================================================== *)

Lemma fits_int64_level p :
  Bson.fits_int64 p = true -> Bson.fits_int64 (Z.max 1 (p / 100)) = true.
Proof.
  unfold Bson.fits_int64, Bson.int64_min, Bson.int64_max.
  rewrite !andb_true_iff, !Z.leb_le.
  pose proof (Z.div_mod p 100 ltac:(lia)) as Hdm.
  pose proof (Z.mod_pos_bound p 100 ltac:(lia)) as Hr.
  lia.
Qed.

Lemma add_points_found c uid pts user :
  BaseModel.find_one (User.by_user_id uid) c = Some user ->
  Bson.fits_int64 (User.points user + pts) = true ->
  User.add_points c uid pts
  = (Py.Ok true,
     BaseModel.update_one (User.by_user_id uid)
       (User.set_points_level (User.points user + pts)
          (Z.max 1 ((User.points user + pts) / 100))) c).
Proof.
  intros H Hfit. unfold User.add_points.
  now rewrite H, Hfit, (fits_int64_level _ Hfit).
Qed.

Lemma add_points_overflow c uid pts user :
  BaseModel.find_one (User.by_user_id uid) c = Some user ->
  Bson.fits_int64 (User.points user + pts) = false ->
  User.add_points c uid pts = (Py.Raise Py.OverflowError, c).
Proof. intros H Hfit. unfold User.add_points. now rewrite H, Hfit. Qed.

Lemma add_points_missing c uid pts :
  BaseModel.find_one (User.by_user_id uid) c = None ->
  User.add_points c uid pts = (Py.Ok false, c).
Proof. intros H. unfold User.add_points. now rewrite H. Qed.

(** The collection [add_points] leaves: the update when it is made, the
    collection as it was when the user is missing or the write is
    refused. *)
Lemma add_points_snd c uid pts :
  snd (User.add_points c uid pts)
  = match BaseModel.find_one (User.by_user_id uid) c with
    | Some user =>
        if Bson.fits_int64 (User.points user + pts)
        then BaseModel.update_one (User.by_user_id uid)
               (User.set_points_level (User.points user + pts)
                  (Z.max 1 ((User.points user + pts) / 100))) c
        else c
    | None => c
    end.
Proof.
  destruct (BaseModel.find_one (User.by_user_id uid) c) as [user|] eqn:Hf.
  - destruct (Bson.fits_int64 (User.points user + pts)) eqn:Hfit.
    + now rewrite (add_points_found _ _ _ _ Hf Hfit).
    + now rewrite (add_points_overflow _ _ _ _ Hf Hfit).
  - now rewrite (add_points_missing _ _ _ Hf).
Qed.

(** After a write of [add_points] the stored level is the one derived from
    the stored points. *)
Lemma add_points_level_invariant c uid pts user user' :
  BaseModel.find_one (User.by_user_id uid) c = Some user ->
  Bson.fits_int64 (User.points user + pts) = true ->
  BaseModel.find_one (User.by_user_id uid) (snd (User.add_points c uid pts))
    = Some user' ->
  User.level user' = Z.max 1 (User.points user' / 100).
Proof.
  intros Hf Hfit Hafter.
  rewrite (add_points_found _ _ _ _ Hf Hfit) in Hafter. simpl in Hafter.
  rewrite find_one_update_one in Hafter by reflexivity.
  rewrite Hf in Hafter. simpl in Hafter.
  injection Hafter as <-. reflexivity.
Qed.

(** C6, amended.  [add_points] is a total function of the collection, the
    user id and an integer delta of either sign.  With no user of that id
    it returns false and the collection as it was.  When the old points
    plus the delta fit in a signed 64-bit integer it returns true, and the
    user's document now holds the old points plus the delta, with no other
    cap and no floor, and the level [max(1, new_points // 100)]; its other
    fields and every other document are as before.  When the sum does not
    fit it raises OverflowError and the collection is as it was. *)
Theorem add_points_spec (c : list User.doc) (uid : string) (delta : Z) :
  match BaseModel.find_one (User.by_user_id uid) c with
  | None => User.add_points c uid delta = (Py.Ok false, c)
  | Some user =>
      if Bson.fits_int64 (User.points user + delta) then
        exists c',
          User.add_points c uid delta = (Py.Ok true, c')
          /\ BaseModel.find_one (User.by_user_id uid) c'
             = Some (User.mk (User.user_id user) (User.email user)
                       (User.points user + delta)
                       (Z.max 1 ((User.points user + delta) / 100))
                       (User.badges user) (User.carbon_footprint_saved user))
          /\ List.length c' = List.length c
          /\ (forall d, In d c -> User.by_user_id uid d = false -> In d c')
      else
        User.add_points c uid delta = (Py.Raise Py.OverflowError, c)
  end.
Proof.
  destruct (BaseModel.find_one (User.by_user_id uid) c) as [user|] eqn:Hf.
  - destruct (Bson.fits_int64 (User.points user + delta)) eqn:Hfit.
    + eexists. split; [apply (add_points_found _ _ _ _ Hf Hfit)|].
      split; [|split].
      * rewrite find_one_update_one by reflexivity. now rewrite Hf.
      * apply update_one_length.
      * intros d Hin Hq. now apply update_one_other.
    + now apply add_points_overflow with (user := user).
  - now apply add_points_missing.
Qed.

(** C6, as the specification words it, fails on a delta that takes the
    points out of the 64-bit range: the code raises and writes nothing
    where the words have it return true with the sum stored. *)
Lemma add_points_overflow_counterexample :
  User.add_points [ alice; bob ] "u-alice" 9223372036854775808
  = (Py.Raise Py.OverflowError, [ alice; bob ])
  /\ claimed_add_points [ alice; bob ] "u-alice" 9223372036854775808
     = (true,
        [ User.mk "u-alice" "alice@example.org" 9223372036854776108
            92233720368547761 [ "Recycler" ] 12.5%float;
          bob ])
  /\ fst (User.add_points [ alice; bob ] "u-alice" 9223372036854775808)
     <> Py.Ok
          (fst (claimed_add_points [ alice; bob ] "u-alice"
                  9223372036854775808)).
Proof.
  split; [vm_compute; reflexivity|].
  split; [vm_compute; reflexivity|].
  vm_compute. discriminate.
Qed.

(* ================================================================== *)
(** * Reward claiming *)
(* ================================================================== *)

Lemma reward_badge_cases reward :
  (exists b, Reward.badge_name reward = Some b
             /\ Py.truthy (Some b) = true /\ reward_badge reward = Some b)
  \/ (Py.truthy (Reward.badge_name reward) = false
      /\ reward_badge reward = None).
Proof.
  unfold reward_badge.
  destruct (Reward.badge_name reward) as [[|a s]|]; simpl; eauto.
Qed.

(** The handler once its four checks have passed: one update of the user's
    document, then the notification, whose refusal turns the answer into the
    handler's 500 while the update stays. *)
Lemma claim_reward_checks_pass env db email rid user reward :
  BaseModel.find_one (User.by_email email) (users db) = Some user ->
  BaseModel.find_one (Reward.by_reward_id rid) (rewards db) = Some reward ->
  (User.points user <? Reward.points_required reward) = false ->
  already_claimed user reward = false ->
  verify_task_completion db (User.user_id user) reward = true ->
  claim_reward env email rid db
  = let db1 :=
      with_users
        (BaseModel.update_one (User.by_user_id (User.user_id user))
           (claim_update user reward) (users db)) db in
    let n := claim_notification env user rid reward in
    if notification_sink env n
    then (claim_success user reward,
          with_notifications (BaseModel.insert_one n (notifications db1)) db1)
    else (error_response (FailedToClaimReward Py.PyMongoError) 500, db1).
Proof.
  intros Hu Hr Hp Hc Ht.
  unfold claim_reward, try_except, claim_reward_body, bind, get.
  rewrite Hu, Hr, Hp, Ht.
  unfold already_claimed, claim_update in *.
  destruct (reward_badge_cases reward) as [(b & Hb & Htr & Hrb)|(Htr & Hrb)];
    rewrite Hrb in *.
  - rewrite Hb in *. rewrite Htr, Hc. simpl.
    unfold create_notification, claim_notification, claim_success, modify, ret.
    simpl. rewrite Hb.
    destruct (notification_sink env _); reflexivity.
  - rewrite Htr. simpl.
    unfold create_notification, claim_notification, claim_success, modify, ret.
    simpl.
    destruct (Reward.badge_name reward) as [b|] eqn:Hb;
      destruct (notification_sink env _); reflexivity.
Qed.

Lemma contains_false_not_In b l : Py.contains b l = false <-> ~ In b l.
Proof.
  unfold Py.contains. split.
  - intros H Hin.
    assert (existsb (String.eqb b) l = true) as Habs; [|congruence].
    apply existsb_exists. exists b. split; [assumption|apply String.eqb_refl].
  - intros Hnin.
    destruct (existsb (String.eqb b) l) eqn:He; [|reflexivity].
    apply existsb_exists in He. destruct He as (x & Hin & Heq).
    apply String.eqb_eq in Heq. subst x. contradiction.
Qed.

Lemma count_occ_appended_once b l :
  ~ In b l -> count_occ string_dec (l ++ [b]) b = 1%nat.
Proof.
  intros Hnin. rewrite count_occ_app.
  rewrite (proj1 (count_occ_not_In string_dec l b) Hnin). simpl.
  destruct (string_dec b b); congruence.
Qed.



Lemma claim_update_badges user reward target :
  User.badges (claim_update user reward target)
  = match reward_badge reward with
    | Some b => (User.badges user ++ [b])%list
    | None => User.badges target
    end.
Proof. unfold claim_update. now destruct (reward_badge reward). Qed.



(** The handler's badge test, as written, is [already_claimed]. *)
Lemma already_claimed_test user reward :
  Py.truthy (Reward.badge_name reward)
  && match Reward.badge_name reward with
     | Some b => Py.contains b (User.badges user)
     | None => false
     end
  = already_claimed user reward.
Proof.
  unfold already_claimed, reward_badge.
  destruct (Reward.badge_name reward) as [[|a s]|]; reflexivity.
Qed.

(** C3.  The answer of [claim_reward] is fixed by the first check that
    fails, in this order: the user is looked up by e-mail (404 when absent),
    then the reward by id (404 when absent), then the points are compared
    with [points_required] (400 "insufficient points", whatever the badge
    and the task state), then the badge is searched in the user's badges
    (400 "already claimed", points being sufficient, whatever the task
    state), then the task oracle is asked (400 "task not completed").  Each
    of these answers leaves the whole store as it was.  When no check fails
    the answer is the success envelope or the handler's 500. *)
Theorem claim_reward_failure_order env db email rid :
  match BaseModel.find_one (User.by_email email) (users db) with
  | None =>
      claim_reward env email rid db = (error_response UserNotFound 404, db)
  | Some user =>
      match BaseModel.find_one (Reward.by_reward_id rid) (rewards db) with
      | None =>
          claim_reward env email rid db
          = (error_response RewardNotFound 404, db)
      | Some reward =>
          if User.points user <? Reward.points_required reward then
            claim_reward env email rid db
            = (error_response
                 (InsufficientPoints (Reward.points_required reward)
                    (User.points user)) 400, db)
          else if already_claimed user reward then
            claim_reward env email rid db
            = (error_response RewardAlreadyClaimed 400, db)
          else if negb (verify_task_completion db (User.user_id user) reward)
          then
            claim_reward env email rid db
            = (error_response (TaskNotCompleted (Reward.description reward))
                 400, db)
          else
            fst (claim_reward env email rid db) = claim_success user reward
            \/ fst (claim_reward env email rid db)
               = error_response (FailedToClaimReward Py.PyMongoError) 500
      end
  end.
Proof.
  destruct (BaseModel.find_one (User.by_email email) (users db))
    as [user|] eqn:Hu.
  2:{ unfold claim_reward, try_except, claim_reward_body, bind, get.
      now rewrite Hu. }
  destruct (BaseModel.find_one (Reward.by_reward_id rid) (rewards db))
    as [reward|] eqn:Hr.
  2:{ unfold claim_reward, try_except, claim_reward_body, bind, get.
      now rewrite Hu, Hr. }
  destruct (User.points user <? Reward.points_required reward) eqn:Hp.
  { unfold claim_reward, try_except, claim_reward_body, bind, get.
    now rewrite Hu, Hr, Hp. }
  destruct (already_claimed user reward) eqn:Hc.
  { unfold claim_reward, try_except, claim_reward_body, bind, get.
    now rewrite Hu, Hr, Hp, already_claimed_test, Hc. }
  destruct (verify_task_completion db (User.user_id user) reward) eqn:Ht;
    simpl.
  2:{ unfold claim_reward, try_except, claim_reward_body, bind, get.
      now rewrite Hu, Hr, Hp, already_claimed_test, Hc, Ht. }
  rewrite (claim_reward_checks_pass env db email rid user reward Hu Hr Hp Hc Ht).
  cbv zeta.
  destruct (notification_sink env _); [left|right]; reflexivity.
Qed.



(** C1 (the point deduction of [claim_reward]).  Alice holds 300 points at
    level 3 and claims a reward that costs 250: the claim succeeds, her
    document then holds 50 points and still level 3, while
    [max(1, 50 // 100)] is 1.  [claim_reward] writes [points] and
    [badges] and never [level]; [add_points] is the only writer of
    [level]. *)
Theorem claim_reward_level_stale :
  exists db' stored,
    claim_reward env_up "alice@example.org" "r-hero" db_example
    = (claim_success alice reward_hero, db')
    /\ BaseModel.find_one (User.by_user_id "u-alice") (users db') = Some stored
    /\ User.points stored = 50
    /\ User.level stored = 3
    /\ Z.max 1 (User.points stored / 100) = 1
    /\ User.level stored <> Z.max 1 (User.points stored / 100).
Proof.
  eexists. eexists.
  split; [vm_compute; reflexivity|].
  split; [vm_compute; reflexivity|].
  cbn [User.points User.level].
  repeat split. vm_compute. discriminate.
Qed.

(** The five failure answers of [claim_reward_failure_order], each met on
    the worked store. *)
Example claim_unknown_user :
  claim_reward env_up "carol@example.org" "r-hero" db_example
  = (error_response UserNotFound 404, db_example).
Proof. reflexivity. Qed.

Example claim_unknown_reward :
  claim_reward env_up "alice@example.org" "r-none" db_example
  = (error_response RewardNotFound 404, db_example).
Proof. reflexivity. Qed.

Example claim_insufficient_points :
  claim_reward env_up "bob@example.org" "r-hero" db_example
  = (error_response (InsufficientPoints 250 40) 400, db_example).
Proof. reflexivity. Qed.

Example claim_already_claimed :
  claim_reward env_up "bob@example.org" "r-hero"
    (with_users [ alice; User.mk "u-bob" "bob@example.org" 400 1
                           [ "Eco Hero" ] 0%float ] db_example)
  = (error_response RewardAlreadyClaimed 400,
     with_users [ alice; User.mk "u-bob" "bob@example.org" 400 1
                           [ "Eco Hero" ] 0%float ] db_example).
Proof. reflexivity. Qed.

Example claim_task_not_completed :
  claim_reward env_up "alice@example.org" "r-saver" db_example
  = (error_response (TaskNotCompleted "Save 50 kg of CO2") 400, db_example).
Proof. vm_compute. reflexivity. Qed.

(* ================================================================== *)
(** * Carbon accounting *)
(* ================================================================== *)

Lemma calculate_carbon_savings_value resource_type usage_reduction :
  calculate_carbon_savings resource_type usage_reduction
  = Py.Ok (Py.round
             (usage_reduction * first_declared_factor resource_type)%float 2).
Proof.
  unfold calculate_carbon_savings, first_declared_factor.
  cbn [Py.dict_get emission_factors default_factors].
  destruct (String.eqb resource_type "electricity"); [reflexivity|].
  destruct (String.eqb resource_type "water"); [reflexivity|].
  destruct (String.eqb resource_type "gas"); reflexivity.
Qed.

(** C4.  For every resource type and every float, [calculate_carbon_savings]
    returns (it never raises) the product of the usage reduction and the
    type's first-declared factor, rounded to two decimals; the bill's unit
    is not an input.  On ('electricity', 100) it returns 50.0 and on
    ('water', 1000) it returns 0.3. *)
Theorem calculate_carbon_savings_spec :
  (forall (resource_type : string) (usage_reduction : float),
      calculate_carbon_savings resource_type usage_reduction
      = Py.Ok (Py.round
                 (usage_reduction * first_declared_factor resource_type)%float
                 2))
  /\ calculate_carbon_savings "electricity" 100%float = Py.Ok 50.0%float
  /\ calculate_carbon_savings "water" 1000%float = Py.Ok 0.3%float.
Proof.
  split; [|split; vm_compute; reflexivity].
  apply calculate_carbon_savings_value.
Qed.

Example carbon_savings_ignore_unit :
  calculate_carbon_savings "water" 264.17%float = Py.Ok 0.08%float
  /\ calculate_carbon_savings "solar" 10%float = Py.Ok 5%float
  /\ calculate_carbon_savings "gas" PrimFloat.infinity
     = Py.Ok PrimFloat.infinity.
Proof. repeat split; vm_compute; reflexivity. Qed.

(* ================================================================== *)
(** * The usage comparator *)
(* ================================================================== *)

Section SortFacts.
Context {D : Type}.
Variable key : D -> Z.

Lemma insert_desc_perm x l :
  Permutation (BaseModel.insert_desc key x l) (x :: l).
Proof.
  induction l as [|y l IH]; simpl; [reflexivity|].
  destruct (key y <=? key x); [reflexivity|].
  rewrite IH. apply perm_swap.
Qed.

Lemma sort_desc_perm l : Permutation (BaseModel.sort_desc key l) l.
Proof.
  induction l as [|x l IH]; simpl; [reflexivity|].
  rewrite insert_desc_perm. now constructor.
Qed.

Lemma insert_desc_sorted x l :
  newest_first key l -> newest_first key (BaseModel.insert_desc key x l).
Proof.
  unfold newest_first.
  induction l as [|y l IH]; intros Hs; simpl.
  - constructor; constructor.
  - destruct (key y <=? key x) eqn:Hle.
    + apply Z.leb_le in Hle.
      constructor; [assumption|].
      constructor; [assumption|].
      inversion Hs as [|? ? _ Hall]; subst.
      eapply Forall_impl; [|exact Hall].
      intros b Hb. simpl in Hb. lia.
    + apply Z.leb_gt in Hle.
      inversion Hs as [|? ? Hs' Hall]; subst.
      constructor; [now apply IH|].
      eapply Permutation_Forall;
        [symmetry; apply insert_desc_perm|].
      constructor; [lia|assumption].
Qed.

Lemma sort_desc_sorted l : newest_first key (BaseModel.sort_desc key l).
Proof.
  induction l as [|x l IH]; simpl.
  - constructor.
  - now apply insert_desc_sorted.
Qed.

Lemma sort_desc_length l :
  List.length (BaseModel.sort_desc key l) = List.length l.
Proof. apply Permutation_length, sort_desc_perm. Qed.
End SortFacts.

(** [get_usage_comparison] in terms of the sorted matching bills. *)
Lemma get_usage_comparison_sorted c uid ty :
  Bill.get_usage_comparison c uid ty
  = match BaseModel.sort_desc Bill.created_at
            (BaseModel.find (Bill.by_user_and_type uid ty) c) with
    | current :: previous :: _ =>
        Some (Bill.mk_comparison
                (Bill.usage_amount current)
                (Bill.usage_amount previous)
                (Bill.usage_amount current - Bill.usage_amount previous)%float
                (Bill.cost current - Bill.cost previous)%float
                (if (0 <? Bill.usage_amount previous)%float
                 then Py.PFloat
                        ((Bill.usage_amount current
                          - Bill.usage_amount previous)
                         / Bill.usage_amount previous * 100)%float
                 else Py.PInt 0))
    | _ => None
    end.
Proof.
  unfold Bill.get_usage_comparison, Bill.last_two, BaseModel.limit.
  destruct (BaseModel.sort_desc Bill.created_at
              (BaseModel.find (Bill.by_user_and_type uid ty) c))
    as [|current [|previous older]]; reflexivity.
Qed.

(** C5, as the code has it.  [get_usage_comparison] returns None exactly
    when fewer than two bills match the user and the type.  Otherwise the
    comparison is taken over the two matching bills with the greatest
    [created_at] (current first): [usage_difference] is current minus
    previous, [cost_difference] likewise, and [percentage_change] is
    [usage_difference / previous_usage * 100] when the previous usage is
    greater than zero and the integer 0 in every other case (zero, negative
    or NaN).  With previous usage 100 and current usage 80 the difference is
    -20 and the percentage -20.0. *)
Theorem get_usage_comparison_spec (c : list Bill.doc) (uid ty : string) :
  let matching := BaseModel.find (Bill.by_user_and_type uid ty) c in
  (Bill.get_usage_comparison c uid ty = None
   <-> (List.length matching < 2)%nat)
  /\ (forall cmp,
        Bill.get_usage_comparison c uid ty = Some cmp ->
        exists current previous older,
          Permutation matching (current :: previous :: older)
          /\ Bill.created_at previous <= Bill.created_at current
          /\ Forall (fun b => Bill.created_at b <= Bill.created_at previous)
               older
          /\ Bill.current_usage cmp = Bill.usage_amount current
          /\ Bill.previous_usage cmp = Bill.usage_amount previous
          /\ Bill.usage_difference cmp
             = (Bill.current_usage cmp - Bill.previous_usage cmp)%float
          /\ Bill.cost_difference cmp
             = (Bill.cost current - Bill.cost previous)%float
          /\ Bill.percentage_change cmp
             = if (0 <? Bill.previous_usage cmp)%float
               then Py.PFloat (Bill.usage_difference cmp
                               / Bill.previous_usage cmp * 100)%float
               else Py.PInt 0)
  /\ (forall cmp,
        Bill.get_usage_comparison c uid ty = Some cmp ->
        Bill.previous_usage cmp = 100%float ->
        Bill.current_usage cmp = 80%float ->
        Bill.usage_difference cmp = (-20)%float
        /\ Bill.percentage_change cmp = Py.PFloat (-20.0)%float).
Proof.
  intros matching.
  rewrite get_usage_comparison_sorted. fold matching.
  pose proof (sort_desc_perm Bill.created_at matching) as Hperm.
  pose proof (sort_desc_sorted Bill.created_at matching) as Hsorted.
  pose proof (sort_desc_length Bill.created_at matching) as Hlen.
  destruct (BaseModel.sort_desc Bill.created_at matching)
    as [|current [|previous older]].
  - simpl in Hlen. repeat split; try discriminate; intros; lia.
  - simpl in Hlen. repeat split; try discriminate; intros; lia.
  - simpl in Hlen. split; [|split].
    + split; [discriminate|lia].
    + intros cmp Hcmp. injection Hcmp as <-.
      exists current, previous, older.
      inversion Hsorted as [|? ? Hs1 Hall1]; subst.
      inversion Hs1 as [|? ? _ Hall2]; subst.
      inversion Hall1 as [|? ? Hle _]; subst.
      split; [now symmetry|].
      split; [assumption|].
      split; [assumption|].
      repeat split.
    + intros cmp Hcmp Hprev Hcur. injection Hcmp as <-.
      simpl in Hprev, Hcur. simpl. rewrite Hprev, Hcur.
      split; vm_compute; reflexivity.
Qed.

(** C5, as the specification words it, fails on a negative previous usage:
    the guard is [previous > 0], so the code stores the integer 0 where the
    quotient times 100 is -180.0. *)
Lemma percentage_change_counterexample :
  exists cmp,
    Bill.get_usage_comparison bills_net_metering "u-alice" "electricity"
    = Some cmp
    /\ Bill.previous_usage cmp = (-100)%float
    /\ Bill.current_usage cmp = 80%float
    /\ Bill.usage_difference cmp = 180%float
    /\ Bill.percentage_change cmp = Py.PInt 0
    /\ claimed_percentage_change cmp = Py.PFloat (-180)%float
    /\ Bill.percentage_change cmp <> claimed_percentage_change cmp.
Proof.
  eexists. split; [vm_compute; reflexivity|].
  repeat split; try (vm_compute; reflexivity).
  vm_compute. discriminate.
Qed.

Example usage_comparison_needs_two_bills :
  Bill.get_usage_comparison [ bill_march ] "u-alice" "electricity" = None
  /\ Bill.get_usage_comparison [ bill_march ] "u-alice" "water" = None.
Proof. split; reflexivity. Qed.

Example usage_comparison_reduction :
  Bill.get_usage_comparison
    [ Bill.mk "b-2" "u-alice" "electricity" 80%float "kWh" 24%float
        "2024-04" None 2000;
      bill_march ]
    "u-alice" "electricity"
  = Some (Bill.mk_comparison 80%float 100%float (-20)%float (-6)%float
            (Py.PFloat (-20)%float)).
Proof. vm_compute. reflexivity. Qed.

(* ================================================================== *)
(** * The task oracle *)
(* ================================================================== *)

Lemma sum_likes_from {D : Type} (likes : D -> Z) (docs : list D) (acc : Z) :
  fold_left (fun a d => a + likes d) docs acc
  = acc + fold_right Z.add 0 (map likes docs).
Proof.
  revert acc. induction docs as [|d docs IH]; intros acc; simpl.
  - lia.
  - rewrite IH. lia.
Qed.

(** [sum_likes] is the sum of the documents' like counts. *)
Lemma sum_likes_sum {D : Type} (likes : D -> Z) (docs : list D) :
  sum_likes likes docs = fold_right Z.add 0 (map likes docs).
Proof. unfold sum_likes. now rewrite sum_likes_from. Qed.

(** C7.  For each recognised task type the oracle answers whether the
    user's quantity is at least the reward's [task_count]: the number of the
    user's posts, reports or bills; the user's [carbon_footprint_saved]; the
    sum of [likes_count] over the user's posts plus that over the user's
    reports; the user's stored [level].  The two quantities read from the
    user's document make the answer false when no such document exists.  In
    particular, for 'level_reached' with threshold 3 the answer is true
    exactly when the user exists with a stored level of at least 3. *)
Theorem verify_task_completion_table db uid reward :
  let n := Reward.task_count reward in
  (Reward.task_type reward = "posts_created" ->
   verify_task_completion db uid reward
   = Py.ge (Py.PInt (BaseModel.count_documents (Post.by_user_id uid)
                       (posts db))) n)
  /\ (Reward.task_type reward = "reports_created" ->
      verify_task_completion db uid reward
      = Py.ge (Py.PInt (BaseModel.count_documents (Report.by_user_id uid)
                          (reports db))) n)
  /\ (Reward.task_type reward = "bills_uploaded" ->
      verify_task_completion db uid reward
      = Py.ge (Py.PInt (BaseModel.count_documents (Bill.by_user_id uid)
                          (bills db))) n)
  /\ (Reward.task_type reward = "carbon_saved" ->
      verify_task_completion db uid reward
      = match BaseModel.find_one (User.by_user_id uid) (users db) with
        | Some user => Py.ge (Py.PFloat (User.carbon_footprint_saved user)) n
        | None => false
        end)
  /\ (Reward.task_type reward = "likes_received" ->
      verify_task_completion db uid reward
      = Py.ge
          (Py.PInt
             (fold_right Z.add 0
                (map Post.likes_count
                   (BaseModel.find (Post.by_user_id uid) (posts db)))
              + fold_right Z.add 0
                  (map Report.likes_count
                     (BaseModel.find (Report.by_user_id uid) (reports db)))))
          n)
  /\ (Reward.task_type reward = "level_reached" ->
      verify_task_completion db uid reward
      = match BaseModel.find_one (User.by_user_id uid) (users db) with
        | Some user => Py.ge (Py.PInt (User.level user)) n
        | None => false
        end)
  /\ (Reward.task_type reward = "level_reached" ->
      n = Py.PInt 3 ->
      (verify_task_completion db uid reward = true
       <-> exists user,
             BaseModel.find_one (User.by_user_id uid) (users db) = Some user
             /\ 3 <= User.level user)).
Proof.
  intros n.
  unfold verify_task_completion, verify_task_completion_body. fold n.
  split; [|split; [|split; [|split; [|split; [|split]]]]].
  1-6: intros ->; cbn [String.eqb Ascii.eqb Bool.eqb];
       rewrite ?sum_likes_sum;
       try destruct (BaseModel.find_one _ _); reflexivity.
  intros Hty Hn. rewrite Hty, Hn.
  cbn [String.eqb Ascii.eqb Bool.eqb].
  destruct (BaseModel.find_one (User.by_user_id uid) (users db)) as [user|].
  - simpl. rewrite Z.leb_le. split.
    + intros Hle. exists user. now split.
    + intros (user' & Huser & Hle). now injection Huser as ->.
  - split; [discriminate|]. intros (user & Huser & _). discriminate.
Qed.

(** C8.  The oracle is a total boolean function: whatever its body raises
    is answered false.  A task type outside the recognised six is answered
    true.  A 'carbon_saved' or 'level_reached' check for a user id with no
    document raises inside the body (attribute access on None) and is
    answered false. *)
Theorem verify_task_completion_total db uid reward :
  (~ In (Reward.task_type reward) recognized_task_types ->
   verify_task_completion db uid reward = true)
  /\ (forall e,
        verify_task_completion_body db uid reward = Py.Raise e ->
        verify_task_completion db uid reward = false)
  /\ (BaseModel.find_one (User.by_user_id uid) (users db) = None ->
      Reward.task_type reward = "carbon_saved"
      \/ Reward.task_type reward = "level_reached" ->
      verify_task_completion_body db uid reward = Py.Raise Py.AttributeError
      /\ verify_task_completion db uid reward = false).
Proof.
  split; [|split].
  - intros Hnot.
    unfold verify_task_completion, verify_task_completion_body.
    repeat match goal with
    | |- context [String.eqb (Reward.task_type reward) ?s] =>
        destruct (String.eqb_spec (Reward.task_type reward) s) as [Heq|_];
        [exfalso; apply Hnot; rewrite Heq; simpl; tauto|]
    end.
    reflexivity.
  - intros e He. unfold verify_task_completion. now rewrite He.
  - intros Hnone Hty.
    unfold verify_task_completion, verify_task_completion_body.
    destruct Hty as [-> | ->]; cbn [String.eqb Ascii.eqb Bool.eqb];
      rewrite Hnone; split; reflexivity.
Qed.

(* ================================================================== *)
(** * Manual bill entry *)
(* ================================================================== *)

(** The three refusals of [manual_entry]; each leaves the store as it
    was. *)
Lemma manual_entry_unknown_user env db email data :
  BaseModel.find_one (User.by_email email) (users db) = None ->
  manual_entry env email data db = (error_response UserNotFound 404, db).
Proof.
  intros Hu. unfold manual_entry, try_except, manual_entry_body, bind, get.
  now rewrite Hu.
Qed.

Lemma manual_entry_missing_fields env db email data user m :
  BaseModel.find_one (User.by_email email) (users db) = Some user ->
  validate_required_fields (BillData.json data) required_fields = Some m ->
  manual_entry env email data db = (error_response m 400, db).
Proof.
  intros Hu Hval.
  unfold manual_entry, try_except, manual_entry_body, bind, get.
  now rewrite Hu, Hval.
Qed.

Lemma manual_entry_invalid_type env db email data user :
  BaseModel.find_one (User.by_email email) (users db) = Some user ->
  validate_required_fields (BillData.json data) required_fields = None ->
  Py.contains (BillData.type data) valid_types = false ->
  manual_entry env email data db = (error_response InvalidBillType 400, db).
Proof.
  intros Hu Hval Hv.
  unfold manual_entry, try_except, manual_entry_body, bind, get.
  now rewrite Hu, Hval, Hv.
Qed.

(** The users collection a manual entry leaves, for an accepted request. *)
Lemma manual_entry_users env db email data user :
  BaseModel.find_one (User.by_email email) (users db) = Some user ->
  validate_required_fields (BillData.json data) required_fields = None ->
  Py.contains (BillData.type data) valid_types = true ->
  users (snd (manual_entry env email data db))
  = match entry_comparison env db user data with
    | Some c =>
        if (Bill.usage_difference c <? 0)%float then
          let credited :=
            BaseModel.update_one (User.by_user_id (User.user_id user))
              (User.inc_carbon (carbon_credit (BillData.type data) c))
              (users db) in
          match Py.int (Py.abs (Bill.percentage_change c)) with
          | Py.Ok n =>
              snd (User.add_points credited (User.user_id user) (Z.min 50 n))
          | Py.Raise _ => credited
          end
        else users db
    | None => users db
    end.
Proof.
  intros Hu Hval Hv.
  unfold manual_entry, try_except, manual_entry_body, bind, get, modify.
  rewrite Hu, Hval, Hv. cbn [negb with_bills bills users].
  fold (entered_bill env user data).
  fold (entry_comparison env db user data).
  destruct (entry_comparison env db user data) as [c|]; [|reflexivity].
  unfold credit_reduction.
  destruct (Bill.usage_difference c <? 0)%float; [|reflexivity].
  unfold bind, lift, update_users, modify.
  rewrite calculate_carbon_savings_value.
  fold (carbon_credit (BillData.type data) c).
  cbn [with_users users].
  destruct (Py.int (Py.abs (Bill.percentage_change c))) as [n|e];
    [|reflexivity].
  unfold user_model_add_points. cbn [with_users users].
  destruct (User.add_points _ _ _) as [[flag|e] us]; [|reflexivity].
  unfold create_notification.
  destruct (notification_sink env _); reflexivity.
Qed.

(** Where the truncation [int(abs(percentage_change))] is defined and the
    points after the award fit in 64 bits, a reduction credits both ledgers
    of the user's document: the carbon saved by the rule of
    [calculate_carbon_savings], and [min(50, n)] points through
    [add_points], which also recomputes the level.  Without a reduction the
    users collection is left as it was. *)
Lemma manual_entry_credit env db email data user :
  BaseModel.find_one (User.by_email email) (users db) = Some user ->
  validate_required_fields (BillData.json data) required_fields = None ->
  Py.contains (BillData.type data) valid_types = true ->
  let after := users (snd (manual_entry env email data db)) in
  (forall c n target,
      entry_comparison env db user data = Some c ->
      (Bill.usage_difference c <? 0)%float = true ->
      Py.int (Py.abs (Bill.percentage_change c)) = Py.Ok n ->
      BaseModel.find_one (User.by_user_id (User.user_id user)) (users db)
      = Some target ->
      Bson.fits_int64 (User.points target + Z.min 50 n) = true ->
      calculate_carbon_savings (BillData.type data)
        (PrimFloat.abs (Bill.usage_difference c))
      = Py.Ok (carbon_credit (BillData.type data) c)
      /\ after
         = snd (User.add_points
                  (BaseModel.update_one
                     (User.by_user_id (User.user_id user))
                     (User.inc_carbon
                        (carbon_credit (BillData.type data) c))
                     (users db))
                  (User.user_id user) (Z.min 50 n))
      /\ BaseModel.find_one (User.by_user_id (User.user_id user)) after
         = Some (User.mk (User.user_id target) (User.email target)
                   (User.points target + Z.min 50 n)
                   (Z.max 1 ((User.points target + Z.min 50 n) / 100))
                   (User.badges target)
                   (User.carbon_footprint_saved target
                    + carbon_credit (BillData.type data) c)%float))
  /\ (entry_comparison env db user data = None -> after = users db)
  /\ (forall c,
        entry_comparison env db user data = Some c ->
        (Bill.usage_difference c <? 0)%float = false ->
        after = users db).
Proof.
  intros Hu Hval Hv after. subst after.
  rewrite (manual_entry_users env db email data user Hu Hval Hv).
  split; [|split].
  - intros c n target Hc Hneg Hint Ht Hfit. rewrite Hc, Hneg, Hint. cbv zeta.
    split; [apply calculate_carbon_savings_value|].
    split; [reflexivity|].
    set (x := carbon_credit (BillData.type data) c).
    assert (BaseModel.find_one (User.by_user_id (User.user_id user))
              (BaseModel.update_one (User.by_user_id (User.user_id user))
                 (User.inc_carbon x) (users db))
            = Some (User.inc_carbon x target)) as Hcred.
    { rewrite find_one_update_one by reflexivity. now rewrite Ht. }
    rewrite (add_points_found _ _ _ _ Hcred Hfit). cbn [snd].
    rewrite find_one_update_one by reflexivity.
    rewrite Hcred. reflexivity.
  - intros Hc. now rewrite Hc.
  - intros c Hc Hneg. now rewrite Hc, Hneg.
Qed.

Example manual_entry_credit_reduction :
  BaseModel.find_one (User.by_user_id "u-alice")
    (users (snd (manual_entry env_up "alice@example.org" entry_reduction
                   db_example)))
  = Some (User.mk "u-alice" "alice@example.org" 320 3 [ "Recycler" ]
            22.5%float).
Proof.
  destruct (manual_entry_credit env_up db_example "alice@example.org"
              entry_reduction alice) as (H & _).
  - reflexivity.
  - reflexivity.
  - reflexivity.
  - destruct (H (Bill.mk_comparison 80%float 100%float (-20)%float (-6)%float
                   (Py.PFloat (-20)%float)) 20 alice)
      as (_ & _ & Hafter).
    + vm_compute. reflexivity.
    + vm_compute. reflexivity.
    + vm_compute. reflexivity.
    + reflexivity.
    + reflexivity.
    + exact Hafter.
Qed.

(** C9 (the point award on a non-finite percentage).  Alice has one stored
    electricity bill of 100 kWh and enters one whose usage amount is minus
    infinity.  The comparison exists and its difference is negative; the
    carbon credit, infinity, is added to her document; then
    [int(abs(percentage_change))] raises OverflowError, so [add_points] is
    not reached, her points and level stay 300 and 3, no notification is
    stored and the handler answers 500. *)
Theorem manual_entry_award_not_reached :
  exists db' c stored,
    manual_entry env_up "alice@example.org" entry_minus_infinity db_example
    = (error_response (FailedToRecordBill Py.OverflowError) 500, db')
    /\ Bill.get_usage_comparison (bills db') "u-alice" "electricity" = Some c
    /\ (Bill.usage_difference c <? 0)%float = true
    /\ Bill.percentage_change c = Py.PFloat PrimFloat.neg_infinity
    /\ Py.int (Py.abs (Bill.percentage_change c)) = Py.Raise Py.OverflowError
    /\ BaseModel.find_one (User.by_user_id "u-alice") (users db')
       = Some stored
    /\ User.carbon_footprint_saved stored = PrimFloat.infinity
    /\ User.points stored = User.points alice
    /\ User.level stored = User.level alice
    /\ notifications db' = [].
Proof.
  eexists. eexists. eexists.
  split; [vm_compute; reflexivity|].
  split; [vm_compute; reflexivity|].
  repeat split; vm_compute; reflexivity.
Qed.

(* ================================================================== *)
(** * Worked examples *)
(* ================================================================== *)

(** The built-ins on the values CPython documents for them. *)
Example round_ties_and_representation :
  Py.round 0.125%float 2 = 0.12%float
  /\ Py.round 0.375%float 2 = 0.38%float
  /\ Py.round 2.675%float 2 = 2.67%float
  /\ Py.round (-0.001)%float 2 = (-0)%float
  /\ Py.round PrimFloat.nan 2 = PrimFloat.nan.
Proof. repeat split; vm_compute; reflexivity. Qed.

Example int_truncates_toward_zero :
  Py.int (Py.PFloat 20.000000000000004%float) = Py.Ok 20
  /\ Py.int (Py.PFloat (-3.99)%float) = Py.Ok (-3)
  /\ Py.int (Py.PFloat PrimFloat.nan) = Py.Raise Py.ValueError
  /\ Py.int (Py.PFloat PrimFloat.infinity) = Py.Raise Py.OverflowError.
Proof. repeat split; vm_compute; reflexivity. Qed.

Example ge_mixes_int_and_float :
  Py.ge (Py.PInt 3) (Py.PFloat 2.5%float) = true
  /\ Py.ge (Py.PInt 2) (Py.PFloat 2.5%float) = false
  /\ Py.ge (Py.PFloat 12.5%float) (Py.PInt 12) = true
  /\ Py.ge (Py.PInt 9007199254740993) (Py.PFloat 9007199254740992%float) = true
  /\ Py.ge (Py.PFloat 9007199254740992%float) (Py.PInt 9007199254740993) = false
  /\ Py.ge (Py.PInt 1) (Py.PFloat PrimFloat.nan) = false.
Proof. repeat split; vm_compute; reflexivity. Qed.

(** [add_points] with deltas of both signs, for an unknown user, and at
    the two ends of the 64-bit range. *)
Example add_points_levels_up :
  User.add_points [ alice; bob ] "u-bob" 170
  = (Py.Ok true,
     [ alice; User.mk "u-bob" "bob@example.org" 210 2 [ "Eco Hero" ]
                0%float ]).
Proof. reflexivity. Qed.

Example add_points_below_zero :
  User.add_points [ alice; bob ] "u-bob" (-250)
  = (Py.Ok true,
     [ alice; User.mk "u-bob" "bob@example.org" (-210) 1 [ "Eco Hero" ]
                0%float ]).
Proof. reflexivity. Qed.

Example add_points_unknown_user :
  User.add_points [ alice; bob ] "u-carol" 10 = (Py.Ok false, [ alice; bob ]).
Proof. reflexivity. Qed.

Example add_points_range_ends :
  fst (User.add_points [ alice; bob ] "u-bob" 9223372036854775767)
  = Py.Ok true
  /\ User.add_points [ alice; bob ] "u-bob" 9223372036854775768
     = (Py.Raise Py.OverflowError, [ alice; bob ])
  /\ fst (User.add_points [ alice; bob ] "u-bob" (-9223372036854775848))
     = Py.Ok true
  /\ User.add_points [ alice; bob ] "u-bob" (-9223372036854775849)
     = (Py.Raise Py.OverflowError, [ alice; bob ]).
Proof. repeat split; vm_compute; reflexivity. Qed.

(** The oracle on the worked store: Alice has 2 posts, 1 report, 1 bill,
    9 likes, 12.5 kg saved and level 3. *)
Example oracle_counts :
  verify_task_completion db_example "u-alice" (task "posts_created" (Py.PInt 2))
  = true
  /\ verify_task_completion db_example "u-alice"
       (task "posts_created" (Py.PFloat 2.5%float)) = false
  /\ verify_task_completion db_example "u-alice"
       (task "reports_created" (Py.PInt 2)) = false
  /\ verify_task_completion db_example "u-alice"
       (task "bills_uploaded" (Py.PInt 1)) = true.
Proof. repeat split; vm_compute; reflexivity. Qed.

Example oracle_likes :
  verify_task_completion db_example "u-alice"
    (task "likes_received" (Py.PInt 9)) = true
  /\ verify_task_completion db_example "u-alice"
       (task "likes_received" (Py.PInt 10)) = false.
Proof. repeat split; vm_compute; reflexivity. Qed.

Example oracle_user_quantities :
  verify_task_completion db_example "u-alice"
    (task "carbon_saved" (Py.PInt 12)) = true
  /\ verify_task_completion db_example "u-alice"
       (task "carbon_saved" (Py.PFloat 12.6%float)) = false
  /\ verify_task_completion db_example "u-alice"
       (task "level_reached" (Py.PInt 3)) = true
  /\ verify_task_completion db_example "u-bob"
       (task "level_reached" (Py.PInt 3)) = false.
Proof. repeat split; vm_compute; reflexivity. Qed.

Example oracle_fails_closed :
  verify_task_completion_body db_example "u-carol"
    (task "level_reached" (Py.PInt 1)) = Py.Raise Py.AttributeError
  /\ verify_task_completion db_example "u-carol"
       (task "level_reached" (Py.PInt 1)) = false
  /\ verify_task_completion db_example "u-carol"
       (task "carbon_saved" (Py.PInt 0)) = false
  /\ verify_task_completion db_example "u-carol"
       (task "manual_review" (Py.PInt 1)) = true.
Proof. repeat split; vm_compute; reflexivity. Qed.

(** The validation of a manual entry: a blank text and a zero amount are
    listed as missing, in the order of the required fields, and nothing is
    stored. *)
Example manual_entry_blank_fields :
  manual_entry env_up "alice@example.org"
    (BillData.mk "electricity" 0%float "  " 40%float "2024-04" None)
    db_example
  = (error_response (MissingRequiredFields [ "usage_amount"; "usage_unit" ])
       400,
     db_example)
  /\ validate_required_fields (BillData.json entry_reduction) required_fields
     = None
  /\ validate_required_fields (BillData.json entry_minus_infinity)
       required_fields
     = None
  /\ validate_required_fields [] required_fields = Some RequestBodyRequired.
Proof. repeat split; vm_compute; reflexivity. Qed.

(** A manual entry that shows no reduction leaves the ledger alone, and
    every accepted entry ends in the handler's 500. *)
Example manual_entry_increase :
  manual_entry env_up "alice@example.org"
    (BillData.mk "electricity" 130%float "kWh" 40%float "2024-04" None)
    db_example
  = (error_response (FailedToRecordBill Py.KeyError) 500,
     with_bills
       [ bill_march;
         Bill.mk "b-new" "u-alice" "electricity" 130%float "kWh" 40%float
           "2024-04" None 2000 ]
       db_example).
Proof. vm_compute. reflexivity. Qed.

(* ================================================================== *)
(** * Manual entry: what is stored and what is compared *)
(* ================================================================== *)

Lemma entered_bill_matches env user data :
  Bill.by_user_and_type (User.user_id user) (BillData.type data)
    (entered_bill env user data) = true.
Proof.
  unfold Bill.by_user_and_type, entered_bill. simpl.
  now rewrite !String.eqb_refl.
Qed.

(** Sorting with one more document that is strictly newer than the rest
    puts it first and leaves the others as they were sorted. *)
Lemma sort_desc_app_newest {D : Type} (key : D -> Z) (x : D) (l : list D) :
  Forall (fun b => key b < key x) l ->
  BaseModel.sort_desc key (l ++ [x]) = x :: BaseModel.sort_desc key l.
Proof.
  induction l as [|a l IH]; intros Hall; simpl; [reflexivity|].
  inversion Hall as [|? ? Ha Hl]; subst.
  rewrite (IH Hl). simpl.
  destruct (key x <=? key a) eqn:Hle; [|reflexivity].
  apply Z.leb_le in Hle. lia.
Qed.

Lemma entry_comparison_sorted env db user data :
  entry_comparison env db user data
  = match BaseModel.sort_desc Bill.created_at
            (BaseModel.find
               (Bill.by_user_and_type (User.user_id user) (BillData.type data))
               (bills db) ++ [entered_bill env user data]) with
    | current :: previous :: _ =>
        Some (Bill.mk_comparison
                (Bill.usage_amount current)
                (Bill.usage_amount previous)
                (Bill.usage_amount current - Bill.usage_amount previous)%float
                (Bill.cost current - Bill.cost previous)%float
                (if (0 <? Bill.usage_amount previous)%float
                 then Py.PFloat
                        ((Bill.usage_amount current
                          - Bill.usage_amount previous)
                         / Bill.usage_amount previous * 100)%float
                 else Py.PInt 0))
    | _ => None
    end.
Proof.
  unfold entry_comparison. rewrite get_usage_comparison_sorted.
  unfold BaseModel.find, BaseModel.insert_one.
  rewrite filter_app. simpl.
  now rewrite entered_bill_matches.
Qed.

(** [bill_data] never holds the key that the success payload reads. *)
Lemma bill_data_has_no_bill_id user data :
  Py.getitem (bill_data user data) "bill_id" = Py.Raise Py.KeyError.
Proof. reflexivity. Qed.

(** Every path of an accepted manual entry ends in the handler's [except]. *)
Lemma manual_entry_accepted env db email data user :
  BaseModel.find_one (User.by_email email) (users db) = Some user ->
  validate_required_fields (BillData.json data) required_fields = None ->
  Py.contains (BillData.type data) valid_types = true ->
  exists e db',
    manual_entry env email data db
    = (error_response (FailedToRecordBill e) 500, db')
    /\ bills db'
       = BaseModel.insert_one (entered_bill env user data) (bills db).
Proof.
  intros Hu Hval Hv.
  unfold manual_entry, try_except, manual_entry_body, bind, get, modify.
  rewrite Hu, Hval, Hv. cbn [negb with_bills bills users].
  fold (entered_bill env user data).
  fold (entry_comparison env db user data).
  unfold lift. rewrite bill_data_has_no_bill_id.
  destruct (entry_comparison env db user data) as [c|];
    [|do 2 eexists; split; reflexivity].
  unfold credit_reduction.
  destruct (Bill.usage_difference c <? 0)%float;
    [|do 2 eexists; split; reflexivity].
  unfold bind, lift, update_users, modify.
  rewrite calculate_carbon_savings_value.
  destruct (Py.int (Py.abs (Bill.percentage_change c))) as [n|e];
    [|do 2 eexists; split; reflexivity].
  unfold user_model_add_points. cbn [with_users users].
  destruct (User.add_points _ _ _) as [[flag|e] us];
    [|do 2 eexists; split; reflexivity].
  unfold create_notification.
  destruct (notification_sink env _); do 2 eexists; split; reflexivity.
Qed.



(** The users collection is written by an accepted entry only. *)
Lemma manual_entry_refused_users env db email data :
  BaseModel.find_one (User.by_email email) (users db) = None
  \/ validate_required_fields (BillData.json data) required_fields <> None
  \/ Py.contains (BillData.type data) valid_types = false ->
  snd (manual_entry env email data db) = db.
Proof.
  intros Hrefused.
  destruct (BaseModel.find_one (User.by_email email) (users db))
    as [user|] eqn:Hu;
    [|now rewrite (manual_entry_unknown_user _ _ _ _ Hu)].
  destruct (validate_required_fields (BillData.json data) required_fields)
    as [m|] eqn:Hval;
    [now rewrite (manual_entry_missing_fields _ _ _ _ _ _ Hu Hval)|].
  destruct Hrefused as [H|[H|Hv]]; [discriminate|congruence|].
  now rewrite (manual_entry_invalid_type _ _ _ _ _ Hu Hval Hv).
Qed.

(** X2.  The first bill a user enters for a resource type never credits the
    ledger: with no stored bill of that user and type, an accepted manual
    entry leaves the users collection as it was. *)
Theorem manual_entry_first_bill_no_credit env db email data user :
  BaseModel.find_one (User.by_email email) (users db) = Some user ->
  Py.contains (BillData.type data) valid_types = true ->
  BaseModel.find
    (Bill.by_user_and_type (User.user_id user) (BillData.type data))
    (bills db) = [] ->
  entry_comparison env db user data = None
  /\ users (snd (manual_entry env email data db)) = users db.
Proof.
  intros Hu Hv Hnone.
  assert (entry_comparison env db user data = None) as Hc.
  { rewrite entry_comparison_sorted, Hnone. reflexivity. }
  split; [exact Hc|].
  destruct (validate_required_fields (BillData.json data) required_fields)
    as [m|] eqn:Hval.
  - now rewrite (manual_entry_missing_fields _ _ _ _ _ _ Hu Hval).
  - rewrite (manual_entry_users env db email data user Hu Hval Hv).
    now rewrite Hc.
Qed.

Lemma manual_entry_first_bill_no_credit_witness :
  users (snd (manual_entry env_up "bob@example.org" entry_reduction
                db_example))
  = users db_example.
Proof.
  destruct (manual_entry_first_bill_no_credit env_up db_example
              "bob@example.org" entry_reduction bob) as (_ & H).
  - reflexivity.
  - reflexivity.
  - reflexivity.
  - exact H.
Defined.

(** X3.  When the clock reading of the entry is later than the [created_at]
    of every stored bill of that user and type, the comparison a manual
    entry works on has the entered amount as current usage and the most
    recent stored bill as previous usage. *)
Theorem manual_entry_compares_with_latest env db user data latest older :
  BaseModel.sort_desc Bill.created_at
    (BaseModel.find
       (Bill.by_user_and_type (User.user_id user) (BillData.type data))
       (bills db)) = latest :: older ->
  Forall (fun b => Bill.created_at b < now env)
    (BaseModel.find
       (Bill.by_user_and_type (User.user_id user) (BillData.type data))
       (bills db)) ->
  exists c,
    entry_comparison env db user data = Some c
    /\ Bill.current_usage c = BillData.usage_amount data
    /\ Bill.previous_usage c = Bill.usage_amount latest
    /\ Bill.usage_difference c
       = (BillData.usage_amount data - Bill.usage_amount latest)%float
    /\ Bill.cost_difference c
       = (BillData.cost data - Bill.cost latest)%float.
Proof.
  intros Hsort Hclock.
  rewrite entry_comparison_sorted.
  rewrite sort_desc_app_newest by exact Hclock.
  rewrite Hsort. eexists. split; [reflexivity|]. repeat split.
Qed.

Lemma manual_entry_compares_with_latest_witness :
  exists c,
    entry_comparison env_up db_example alice entry_reduction = Some c
    /\ Bill.current_usage c = 80%float
    /\ Bill.previous_usage c = 100%float.
Proof.
  destruct (manual_entry_compares_with_latest env_up db_example alice
              entry_reduction bill_march [])
    as (c & Hc & Hcur & Hprev & _).
  - reflexivity.
  - repeat constructor.
  - exists c. split; [exact Hc|]. split; [exact Hcur|exact Hprev].
Defined.

(* ================================================================== *)
(** * The reward catalogue, the progress report and the leaderboard *)
(* ================================================================== *)

Section AscendingSort.
Context {D : Type}.
Variable key : D -> Z.

Lemma insert_asc_perm x l :
  Permutation (Cursor.insert_asc key x l) (x :: l).
Proof.
  induction l as [|y l IH]; simpl; [reflexivity|].
  destruct (key x <=? key y); [reflexivity|].
  rewrite IH. apply perm_swap.
Qed.

Lemma sort_asc_perm l : Permutation (Cursor.sort_asc key l) l.
Proof.
  induction l as [|x l IH]; simpl; [reflexivity|].
  rewrite insert_asc_perm. now constructor.
Qed.

Lemma insert_asc_sorted x l :
  StronglySorted (fun a b => key a <= key b) l ->
  StronglySorted (fun a b => key a <= key b) (Cursor.insert_asc key x l).
Proof.
  induction l as [|y l IH]; intros Hs; simpl.
  - constructor; constructor.
  - destruct (key x <=? key y) eqn:Hle.
    + apply Z.leb_le in Hle.
      constructor; [assumption|].
      constructor; [assumption|].
      inversion Hs as [|? ? _ Hall]; subst.
      eapply Forall_impl; [|exact Hall].
      intros b Hb. simpl in Hb. lia.
    + apply Z.leb_gt in Hle.
      inversion Hs as [|? ? Hs' Hall]; subst.
      constructor; [now apply IH|].
      eapply Permutation_Forall; [symmetry; apply insert_asc_perm|].
      constructor; [lia|assumption].
Qed.

Lemma sort_asc_sorted l :
  StronglySorted (fun a b => key a <= key b) (Cursor.sort_asc key l).
Proof.
  induction l as [|x l IH]; simpl.
  - constructor.
  - now apply insert_asc_sorted.
Qed.
End AscendingSort.

Lemma find_all {D : Type} (c : list D) :
  BaseModel.find (fun _ => true) c = c.
Proof.
  unfold BaseModel.find. induction c as [|d c IH]; simpl; congruence.
Qed.

Lemma StronglySorted_map {A B : Type} (R : A -> A -> Prop)
  (R' : B -> B -> Prop) (f : A -> B) (l : list A) :
  (forall a b, R a b -> R' (f a) (f b)) ->
  StronglySorted R l -> StronglySorted R' (map f l).
Proof.
  intros Hf. induction 1 as [|a l Hs IH Hall]; simpl; constructor.
  - exact IH.
  - apply Forall_map. eapply Forall_impl; [|exact Hall].
    intros b Hb. now apply Hf.
Qed.

(** The badge test of the listing, as written, is [already_claimed]. *)
Lemma listing_flag user reward :
  match Reward.badge_name reward with
  | Some b =>
      if Py.truthy (Reward.badge_name reward)
      then Py.contains b (User.badges user)
      else false
  | None => false
  end = already_claimed user reward.
Proof.
  unfold already_claimed, reward_badge.
  destruct (Reward.badge_name reward) as [[|a s]|]; reflexivity.
Qed.

Lemma get_rewards_found email db user :
  BaseModel.find_one (User.by_email email) (users db) = Some user ->
  get_rewards email db
  = reply_success
      (RewardsListing.mk
         (map (listed_entry user)
            (Cursor.sort_asc Reward.points_required (rewards db)))
         (User.points user)
         (Z.of_nat (List.length (rewards db))))
      200.
Proof.
  intros Hu. unfold get_rewards. rewrite Hu, find_all.
  f_equal. f_equal.
  - apply map_ext. intros reward. unfold listed_entry.
    now rewrite listing_flag.
  - rewrite length_map.
    now rewrite (Permutation_length (sort_asc_perm Reward.points_required _)).
Qed.

(** X4.  For a known user [get_rewards] lists every reward of the catalogue
    exactly once, cheapest first; it reports the catalogue size and the
    user's points, flags a reward eligible exactly when the user's points
    reach its price, and flags it already claimed exactly when it has a
    badge the user holds. *)
Theorem get_rewards_listing email db user :
  BaseModel.find_one (User.by_email email) (users db) = Some user ->
  exists listing,
    get_rewards email db = reply_success listing 200
    /\ Permutation (map RewardData.reward (RewardsListing.rewards listing))
         (rewards db)
    /\ StronglySorted
         (fun a b =>
            Reward.points_required (RewardData.reward a)
            <= Reward.points_required (RewardData.reward b))
         (RewardsListing.rewards listing)
    /\ RewardsListing.total_rewards listing
       = Z.of_nat (List.length (rewards db))
    /\ RewardsListing.user_points listing = User.points user
    /\ Forall
         (fun e =>
            (RewardData.eligible e = true
             <-> Reward.points_required (RewardData.reward e)
                 <= User.points user)
            /\ RewardData.already_claimed e
               = already_claimed user (RewardData.reward e))
         (RewardsListing.rewards listing).
Proof.
  intros Hu. eexists. split; [apply (get_rewards_found _ _ _ Hu)|].
  cbn [RewardsListing.rewards RewardsListing.total_rewards
       RewardsListing.user_points].
  split.
  { rewrite map_map. cbn [listed_entry RewardData.reward].
    rewrite map_id. apply sort_asc_perm. }
  split.
  { eapply StronglySorted_map; [|apply sort_asc_sorted].
    intros a b Hab. exact Hab. }
  split; [reflexivity|]. split; [reflexivity|].
  apply Forall_map. apply Forall_forall. intros reward _.
  cbn [listed_entry RewardData.eligible RewardData.reward
       RewardData.already_claimed].
  split; [apply Z.leb_le|reflexivity].
Qed.

Lemma get_rewards_listing_witness :
  exists listing,
    get_rewards "alice@example.org" db_example = reply_success listing 200
    /\ RewardsListing.total_rewards listing = 2.
Proof.
  destruct (get_rewards_listing "alice@example.org" db_example alice)
    as (listing & H & _ & _ & Ht & _).
  - reflexivity.
  - exists listing. split; [exact H|exact Ht].
Defined.

Lemma claim_reward_refused_points env db email rid user reward :
  BaseModel.find_one (User.by_email email) (users db) = Some user ->
  BaseModel.find_one (Reward.by_reward_id rid) (rewards db) = Some reward ->
  (User.points user <? Reward.points_required reward) = true ->
  claim_reward env email rid db
  = (error_response
       (InsufficientPoints (Reward.points_required reward) (User.points user))
       400, db).
Proof.
  intros Hu Hr Hp.
  unfold claim_reward, try_except, claim_reward_body, bind, get.
  now rewrite Hu, Hr, Hp.
Qed.

Lemma claim_reward_refused_badge env db email rid user reward :
  BaseModel.find_one (User.by_email email) (users db) = Some user ->
  BaseModel.find_one (Reward.by_reward_id rid) (rewards db) = Some reward ->
  (User.points user <? Reward.points_required reward) = false ->
  already_claimed user reward = true ->
  claim_reward env email rid db
  = (error_response RewardAlreadyClaimed 400, db).
Proof.
  intros Hu Hr Hp Hc.
  unfold claim_reward, try_except, claim_reward_body, bind, get.
  now rewrite Hu, Hr, Hp, already_claimed_test, Hc.
Qed.

Lemma claim_reward_refused_task env db email rid user reward :
  BaseModel.find_one (User.by_email email) (users db) = Some user ->
  BaseModel.find_one (Reward.by_reward_id rid) (rewards db) = Some reward ->
  (User.points user <? Reward.points_required reward) = false ->
  already_claimed user reward = false ->
  verify_task_completion db (User.user_id user) reward = false ->
  claim_reward env email rid db
  = (error_response (TaskNotCompleted (Reward.description reward)) 400, db).
Proof.
  intros Hu Hr Hp Hc Ht.
  unfold claim_reward, try_except, claim_reward_body, bind, get.
  now rewrite Hu, Hr, Hp, already_claimed_test, Hc, Ht.
Qed.

(** X5.  The listing predicts the claim.  For the reward a claim would look
    up, [get_rewards] shows an entry whose flags decide the first two checks
    of [claim_reward]: not eligible means the claim is refused for
    insufficient points; eligible and already claimed means it is refused as
    already claimed; eligible and not yet claimed means the only refusal
    left is the task check. *)
Theorem listing_predicts_claim env db email rid user reward :
  BaseModel.find_one (User.by_email email) (users db) = Some user ->
  BaseModel.find_one (Reward.by_reward_id rid) (rewards db) = Some reward ->
  exists listing entry,
    get_rewards email db = reply_success listing 200
    /\ In entry (RewardsListing.rewards listing)
    /\ RewardData.reward entry = reward
    /\ (RewardData.eligible entry = false ->
        claim_reward env email rid db
        = (error_response
             (InsufficientPoints (Reward.points_required reward)
                (User.points user)) 400, db))
    /\ (RewardData.eligible entry = true ->
        RewardData.already_claimed entry = true ->
        claim_reward env email rid db
        = (error_response RewardAlreadyClaimed 400, db))
    /\ (RewardData.eligible entry = true ->
        RewardData.already_claimed entry = false ->
        fst (claim_reward env email rid db)
        = error_response (TaskNotCompleted (Reward.description reward)) 400
        \/ fst (claim_reward env email rid db) = claim_success user reward
        \/ fst (claim_reward env email rid db)
           = error_response (FailedToClaimReward Py.PyMongoError) 500).
Proof.
  intros Hu Hr.
  eexists. exists (listed_entry user reward).
  split; [apply (get_rewards_found _ _ _ Hu)|].
  cbn [RewardsListing.rewards listed_entry RewardData.reward
       RewardData.eligible RewardData.already_claimed].
  split.
  { apply in_map.
    apply (Permutation_in _ (Permutation_sym (sort_asc_perm _ _))).
    now apply find_one_some in Hr. }
  split; [reflexivity|].
  split; [|split].
  - intros He. apply (claim_reward_refused_points _ _ _ _ _ _ Hu Hr).
    apply Z.ltb_lt. apply Z.leb_gt in He. exact He.
  - intros He Hc. apply (claim_reward_refused_badge _ _ _ _ _ _ Hu Hr);
      [|exact Hc].
    apply Z.ltb_ge. now apply Z.leb_le.
  - intros He Hc.
    assert ((User.points user <? Reward.points_required reward) = false)
      as Hp by (apply Z.ltb_ge; now apply Z.leb_le).
    destruct (verify_task_completion db (User.user_id user) reward) eqn:Ht.
    + rewrite (claim_reward_checks_pass env db email rid user reward
                 Hu Hr Hp Hc Ht).
      cbv zeta. destruct (notification_sink env _); auto.
    + left.
      now rewrite (claim_reward_refused_task _ _ _ _ _ _ Hu Hr Hp Hc Ht).
Qed.

Lemma listing_predicts_claim_witness :
  claim_reward env_up "bob@example.org" "r-hero" db_example
  = (error_response (InsufficientPoints 250 40) 400, db_example).
Proof.
  destruct (listing_predicts_claim env_up db_example "bob@example.org"
              "r-hero" bob reward_hero)
    as (listing & entry & Hl & Hin & Hrew & Hno & _).
  - reflexivity.
  - reflexivity.
  - apply Hno.
    vm_compute in Hl. injection Hl as <-.
    cbn [RewardsListing.rewards] in Hin.
    destruct Hin as [<-|[<-|[]]].
    + discriminate Hrew.
    + reflexivity.
Defined.

(** X6.  The progress report and the task oracle agree.  Whenever
    [get_reward_progress] answers with a report, each figure in it is the
    quantity the oracle compares: for an integer threshold the oracle
    answers true exactly when the reported posts, reports, bills, likes or
    level reach it, and for a float threshold on 'carbon_saved' exactly when
    the reported carbon saving does. *)
Theorem progress_matches_oracle email uid db p reward :
  get_reward_progress email uid db = reply_success p 200 ->
  (forall n,
      Reward.task_count reward = Py.PInt n ->
      (Reward.task_type reward = "posts_created" ->
       verify_task_completion db uid reward
       = (n <=? Progress.posts_created (Progress.activity p)))
      /\ (Reward.task_type reward = "reports_created" ->
          verify_task_completion db uid reward
          = (n <=? Progress.reports_created (Progress.activity p)))
      /\ (Reward.task_type reward = "bills_uploaded" ->
          verify_task_completion db uid reward
          = (n <=? Progress.bills_uploaded (Progress.activity p)))
      /\ (Reward.task_type reward = "likes_received" ->
          verify_task_completion db uid reward
          = (n <=? Progress.likes_received (Progress.activity p)))
      /\ (Reward.task_type reward = "level_reached" ->
          verify_task_completion db uid reward
          = (n <=? Progress.current_level p)))
  /\ (forall t,
        Reward.task_count reward = Py.PFloat t ->
        Reward.task_type reward = "carbon_saved" ->
        verify_task_completion db uid reward
        = (t <=? Progress.carbon_footprint_saved p)%float).
Proof.
  intros Hp. unfold get_reward_progress in Hp.
  destruct (BaseModel.find_one (User.by_email email) (users db))
    as [current_user|]; [|discriminate].
  destruct (negb (String.eqb (User.user_id current_user) uid));
    [discriminate|].
  destruct (BaseModel.find_one (User.by_user_id uid) (users db))
    as [user|] eqn:Hu; [|discriminate].
  injection Hp as <-.
  cbn [Progress.activity Progress.posts_created Progress.reports_created
       Progress.bills_uploaded Progress.likes_received
       Progress.current_level Progress.carbon_footprint_saved].
  unfold verify_task_completion, verify_task_completion_body.
  split.
  - intros n Hn. rewrite Hn.
    repeat split; intros ->; cbn [String.eqb Ascii.eqb Bool.eqb];
      rewrite ?Hu; reflexivity.
  - intros t Ht ->. rewrite Ht. cbn [String.eqb Ascii.eqb Bool.eqb].
    rewrite Hu. reflexivity.
Qed.

Lemma progress_matches_oracle_witness :
  verify_task_completion db_example "u-alice"
    (task "likes_received" (Py.PInt 9)) = true.
Proof.
  destruct (progress_matches_oracle "alice@example.org" "u-alice" db_example
              (Progress.mk "u-alice" 3 300 12.5%float
                 (Progress.mk_activities 2 1 1 9) [ "Recycler" ] 1)
              (task "likes_received" (Py.PInt 9))) as (H & _).
  - vm_compute. reflexivity.
  - destruct (H 9 eq_refl) as (_ & _ & _ & Hlikes & _).
    rewrite (Hlikes eq_refl). reflexivity.
Defined.

(* ------------------------------------------------------------------ *)

Lemma enumerate_length {D : Type} (start : Z) (l : list D) :
  List.length (Cursor.enumerate start l) = List.length l.
Proof.
  revert start. induction l as [|x l IH]; intros start; simpl; congruence.
Qed.

Lemma enumerate_nth {D : Type} (start : Z) (l : list D) (i : nat) :
  nth_error (Cursor.enumerate start l) i
  = option_map (fun x => (start + Z.of_nat i, x)) (nth_error l i).
Proof.
  revert start i. induction l as [|x l IH]; intros start [|i]; simpl;
    try reflexivity.
  - now rewrite Z.add_0_r.
  - rewrite IH. destruct (nth_error l i); simpl; [|reflexivity].
    f_equal. f_equal. lia.
Qed.

Lemma enumerate_snd {D : Type} (start : Z) (l : list D) :
  map snd (Cursor.enumerate start l) = l.
Proof.
  revert start. induction l as [|x l IH]; intros start; simpl; congruence.
Qed.

Lemma StronglySorted_app_parts {A : Type} (R : A -> A -> Prop)
  (l1 l2 : list A) :
  StronglySorted R (l1 ++ l2) ->
  StronglySorted R l1
  /\ forall a b, In a l1 -> In b l2 -> R a b.
Proof.
  induction l1 as [|x l1 IH]; simpl; intros Hs.
  - split; [constructor|]. intros a b [].
  - inversion Hs as [|? ? Hs' Hall]; subst.
    destruct (IH Hs') as [Hs1 Hcross].
    rewrite Forall_app in Hall. destruct Hall as [Hall1 Hall2].
    split; [now constructor|].
    intros a b [<-|Ha] Hb.
    + rewrite Forall_forall in Hall2. now apply Hall2.
    + now apply Hcross.
Qed.

(** X7.  [get_rewards_leaderboard] shows the users with the most points: it
    lists min(50, number of users) rows, ranked 1, 2, 3, ... in order, with
    points never increasing down the list, and every user left out has at
    most the points of every user listed.  [total_users] is the number of
    rows shown, not the number of users. *)
Theorem leaderboard_is_top_fifty db :
  exists board top rest,
    get_rewards_leaderboard db
    = reply_success (board, Z.of_nat (List.length board)) 200
    /\ Permutation (users db) (top ++ rest)
    /\ List.length board = Nat.min 50 (List.length (users db))
    /\ map Ranked.user_id board = map User.user_id top
    /\ map Ranked.points board = map User.points top
    /\ (forall i row,
          nth_error board i = Some row -> Ranked.rank row = Z.of_nat i + 1)
    /\ StronglySorted (fun a b => Ranked.points b <= Ranked.points a) board
    /\ (forall t u, In t top -> In u rest -> User.points u <= User.points t).
Proof.
  set (sorted := BaseModel.sort_desc User.points (users db)).
  set (top := firstn 50 sorted).
  set (rest := skipn 50 sorted).
  exists (map ranked (Cursor.enumerate 1 top)), top, rest.
  assert (Permutation (users db) (top ++ rest)) as Hperm.
  { unfold top, rest. rewrite firstn_skipn. symmetry.
    apply sort_desc_perm. }
  assert (StronglySorted (fun a b => User.points b <= User.points a)
            (top ++ rest)) as Hsorted.
  { unfold top, rest. rewrite firstn_skipn. apply sort_desc_sorted. }
  destruct (StronglySorted_app_parts _ _ _ Hsorted) as [Htop Hcross].
  split.
  { unfold get_rewards_leaderboard, BaseModel.limit. rewrite find_all.
    fold sorted. fold top.
    assert (map (fun iu : Z * User.doc =>
                   let (i, user) := iu in
                   Ranked.mk i (User.user_id user) (User.points user)
                     (User.level user)
                     (Z.of_nat (List.length (User.badges user)))
                     (User.carbon_footprint_saved user))
                (Cursor.enumerate 1 top)
            = map ranked (Cursor.enumerate 1 top)) as ->.
    { apply map_ext. intros [i user]. reflexivity. }
    reflexivity. }
  split; [exact Hperm|].
  split.
  { rewrite length_map, enumerate_length. unfold top.
    rewrite length_firstn. unfold sorted.
    now rewrite sort_desc_length. }
  split.
  { rewrite map_map. cbn [ranked Ranked.user_id].
    rewrite <- (map_map snd User.user_id). now rewrite enumerate_snd. }
  split.
  { rewrite map_map. cbn [ranked Ranked.points].
    rewrite <- (map_map snd User.points). now rewrite enumerate_snd. }
  split.
  { intros i row Hrow. rewrite nth_error_map, enumerate_nth in Hrow.
    destruct (nth_error top i) as [u|]; [|discriminate].
    assert (row = ranked (1 + Z.of_nat i, u)) as ->
      by (unfold option_map in Hrow; congruence).
    unfold ranked, Ranked.rank, fst. lia. }
  split.
  { assert (forall l start,
               StronglySorted (fun a b => User.points b <= User.points a) l ->
               StronglySorted (fun a b => Ranked.points b <= Ranked.points a)
                 (map ranked (Cursor.enumerate start l))) as Hgen.
    { induction l as [|x l IH]; intros start Hs; simpl; [constructor|].
      inversion Hs as [|? ? Hs' Hall]; subst.
      constructor; [now apply IH|].
      apply Forall_map. apply Forall_forall. intros [j u] Hin. simpl.
      rewrite Forall_forall in Hall. apply Hall.
      rewrite <- (enumerate_snd (start + 1) l).
      now apply (in_map snd) in Hin. }
    now apply Hgen. }
  intros t u Ht Hu. now apply Hcross.
Qed.

(* ================================================================== *)
(** * Deleting a bill *)
(* ================================================================== *)

Section DeleteFacts.
Context {D : Type}.
Variable query : D -> bool.

Lemma delete_one_found (c : list D) (d : D) :
  BaseModel.find_one query c = Some d ->
  exists c',
    Cursor.delete_one query c = (1, c')
    /\ Permutation c (d :: c')
    /\ List.length c = S (List.length c').
Proof.
  induction c as [|x c IH]; simpl; [discriminate|].
  destruct (query x) eqn:Hq.
  - intros [= ->]. exists c. repeat split; reflexivity.
  - intros Hf. destruct (IH Hf) as (c' & Hdel & Hperm & Hlen).
    rewrite Hdel. exists (x :: c'). split; [reflexivity|]. split.
    + rewrite Hperm. apply perm_swap.
    + simpl. now rewrite Hlen.
Qed.

Lemma delete_one_missing (c : list D) :
  BaseModel.find_one query c = None -> Cursor.delete_one query c = (0, c).
Proof.
  induction c as [|x c IH]; simpl; [reflexivity|].
  destruct (query x); [discriminate|].
  intros Hf. now rewrite (IH Hf).
Qed.
End DeleteFacts.

(** With unique bill ids, the id is gone after the deletion. *)
Lemma delete_one_unique_id (bid : string) (c : list Bill.doc) :
  NoDup (map Bill.bill_id c) ->
  BaseModel.find_one (by_bill_id bid)
    (snd (Cursor.delete_one (by_bill_id bid) c)) = None.
Proof.
  induction c as [|x c IH]; simpl; [reflexivity|].
  intros Hnd. inversion Hnd as [|? ? Hnotin Hnd']; subst.
  destruct (by_bill_id bid x) eqn:Hq.
  - simpl.
    destruct (BaseModel.find_one (by_bill_id bid) c) as [y|] eqn:Hf;
      [|reflexivity].
    apply find_one_some in Hf. destruct Hf as [Hin Hy].
    unfold by_bill_id in Hq, Hy.
    apply String.eqb_eq in Hq. apply String.eqb_eq in Hy.
    exfalso. apply Hnotin. rewrite Hq, <- Hy. now apply in_map.
  - specialize (IH Hnd').
    destruct (Cursor.delete_one (by_bill_id bid) c) as [n c'].
    simpl in *. now rewrite Hq.
Qed.

Lemma with_bills_same db : with_bills (bills db) db = db.
Proof. now destruct db. Qed.

(** X8.  [delete_bill] removes at most one bill, and only one that belongs
    to the caller: on success exactly the bill found under that id, owned by
    the caller, is gone and every other bill is kept; on any refusal (unknown
    caller, unknown bill, someone else's bill) the store is left as it was.
    Users, rewards, posts, reports and notifications are never written.
    With unique bill ids the id can no longer be found afterwards. *)
Theorem delete_bill_owner_only email bid db :
  users (snd (delete_bill email bid db)) = users db
  /\ rewards (snd (delete_bill email bid db)) = rewards db
  /\ posts (snd (delete_bill email bid db)) = posts db
  /\ reports (snd (delete_bill email bid db)) = reports db
  /\ notifications (snd (delete_bill email bid db)) = notifications db
  /\ match fst (delete_bill email bid db) with
     | reply_success _ _ =>
         exists caller bill,
           BaseModel.find_one (User.by_email email) (users db) = Some caller
           /\ BaseModel.find_one (by_bill_id bid) (bills db) = Some bill
           /\ Bill.user_id bill = User.user_id caller
           /\ Permutation (bills db)
                (bill :: bills (snd (delete_bill email bid db)))
           /\ (NoDup (map Bill.bill_id (bills db)) ->
               BaseModel.find_one (by_bill_id bid)
                 (bills (snd (delete_bill email bid db))) = None)
     | reply_error _ _ => snd (delete_bill email bid db) = db
     end.
Proof.
  unfold delete_bill.
  destruct (BaseModel.find_one (User.by_email email) (users db))
    as [caller|] eqn:Hu; [|repeat split].
  destruct (BaseModel.find_one (by_bill_id bid) (bills db))
    as [bill|] eqn:Hb; [|repeat split].
  destruct (String.eqb (Bill.user_id bill) (User.user_id caller)) eqn:Hown;
    cbn [negb]; [|repeat split].
  destruct (delete_one_found (by_bill_id bid) (bills db) bill Hb)
    as (bs & Hdel & Hperm & _).
  pose proof (delete_one_unique_id bid (bills db)) as Huniq.
  rewrite Hdel in *. cbn [Z.eqb fst snd with_bills users rewards posts reports
                            notifications bills] in *.
  repeat (split; [reflexivity|]).
  exists caller, bill.
  repeat (split; [first [reflexivity | assumption]|]).
  split; [now apply String.eqb_eq|]. split; assumption.
Qed.

Example delete_own_bill :
  delete_bill "alice@example.org" "b-1" db_example
  = (reply_success "Bill deleted successfully" 200, with_bills [] db_example).
Proof. reflexivity. Qed.

Example delete_foreign_bill :
  delete_bill "bob@example.org" "b-1" db_example
  = (reply_error (Text "Unauthorized to delete this bill") 403, db_example).
Proof. reflexivity. Qed.

(* ================================================================== *)
(** * The comparison endpoint after a manual entry *)
(* ================================================================== *)






(* ================================================================== *)
(** * Likes and verifications *)
(* ================================================================== *)

Section UpdateTwice.
Context {D : Type}.
Variables (query : D -> bool) (f g : D -> D).

Lemma update_one_twice (c : list D) :
  (forall d, query (f d) = query d) ->
  BaseModel.update_one query g (BaseModel.update_one query f c)
  = BaseModel.update_one query (fun d => g (f d)) c.
Proof.
  intros Hkey. induction c as [|x c IH]; simpl; [reflexivity|].
  destruct (query x) eqn:Hq; simpl.
  - now rewrite Hkey, Hq.
  - now rewrite Hq, IH.
Qed.

Lemma update_one_fixed (c : list D) (d : D) :
  BaseModel.find_one query c = Some d -> f d = d ->
  BaseModel.update_one query f c = c.
Proof.
  induction c as [|x c IH]; simpl; [discriminate|].
  destruct (query x).
  - intros [= ->] Hf. now rewrite Hf.
  - intros Hd Hf. now rewrite IH.
Qed.
End UpdateTwice.

Lemma pull_absent uid (l : list string) :
  ~ In uid l -> List.filter (fun x => negb (String.eqb x uid)) l = l.
Proof.
  induction l as [|y l IH]; simpl; [reflexivity|].
  intros Hnin. destruct (String.eqb_spec y uid) as [->|Hne]; simpl.
  - exfalso. apply Hnin. now left.
  - rewrite IH; [reflexivity|]. intros Hin. apply Hnin. now right.
Qed.

Lemma pull_present_length uid (l : list string) :
  NoDup l -> In uid l ->
  S (List.length (List.filter (fun x => negb (String.eqb x uid)) l))
  = List.length l.
Proof.
  induction l as [|y l IH]; simpl; [tauto|].
  intros Hnd Hin. inversion Hnd as [|? ? Hnotin Hnd']; subst.
  destruct (String.eqb_spec y uid) as [->|Hne]; simpl.
  - now rewrite pull_absent.
  - destruct Hin as [->|Hin]; [congruence|]. now rewrite IH.
Qed.

Lemma pull_members uid (l : list string) x :
  In x (List.filter (fun y => negb (String.eqb y uid)) l)
  <-> In x l /\ x <> uid.
Proof.
  rewrite filter_In. split; intros [Hin Hne]; split; try assumption.
  - intros ->. now rewrite String.eqb_refl in Hne.
  - destruct (String.eqb_spec x uid); [contradiction|reflexivity].
Qed.

Lemma contains_true_In b l : Py.contains b l = true <-> In b l.
Proof.
  destruct (Py.contains b l) eqn:Hc; split; try tauto; intros H.
  - destruct (In_dec string_dec b l) as [Hin|Hnin]; [assumption|].
    apply contains_false_not_In in Hnin. congruence.
  - discriminate.
  - apply contains_false_not_In in Hc. contradiction.
Qed.

(** One call of [like_post] on an existing post. *)
Lemma like_post_step c pid uid post :
  BaseModel.find_one (PostLikes.by_post_id pid) c = Some post ->
  let toggle :=
    if Py.contains uid (PostLikes.likes post)
    then PostLikes.unlike uid else PostLikes.like uid in
  PostLikes.like_post c pid uid
  = (true, BaseModel.update_one (PostLikes.by_post_id pid) toggle c)
  /\ BaseModel.find_one (PostLikes.by_post_id pid)
       (BaseModel.update_one (PostLikes.by_post_id pid) toggle c)
     = Some (toggle post).
Proof.
  intros Hf toggle. unfold PostLikes.like_post. rewrite Hf.
  subst toggle.
  destruct (Py.contains uid (PostLikes.likes post)); split;
    try reflexivity; rewrite find_one_update_one by reflexivity;
    now rewrite Hf.
Qed.

(** X10.  [like_post] is a toggle that keeps the like bookkeeping
    consistent.  On a post that exists and whose counter matches its
    duplicate-free liker list, a call returns True, flips the caller's
    membership in the liker list, leaves everyone else's membership alone,
    moves the counter by exactly one in the matching direction, and the
    post is consistent again; posts with another id are untouched. *)
Theorem like_post_toggles c pid uid post :
  BaseModel.find_one (PostLikes.by_post_id pid) c = Some post ->
  likes_consistent post ->
  exists post',
    fst (PostLikes.like_post c pid uid) = true
    /\ BaseModel.find_one (PostLikes.by_post_id pid)
         (snd (PostLikes.like_post c pid uid)) = Some post'
    /\ likes_consistent post'
    /\ (In uid (PostLikes.likes post') <-> ~ In uid (PostLikes.likes post))
    /\ (forall x, x <> uid ->
          (In x (PostLikes.likes post') <-> In x (PostLikes.likes post)))
    /\ PostLikes.likes_count post'
       = PostLikes.likes_count post
         + (if Py.contains uid (PostLikes.likes post) then -1 else 1)
    /\ PostLikes.user_id post' = PostLikes.user_id post
    /\ (forall d, In d c -> PostLikes.by_post_id pid d = false ->
          In d (snd (PostLikes.like_post c pid uid))).
Proof.
  intros Hf [Hnd Hcount].
  destruct (like_post_step c pid uid post Hf) as [Heq Hfound].
  rewrite Heq. cbn [fst snd]. eexists.
  split; [reflexivity|]. split; [exact Hfound|].
  destruct (Py.contains uid (PostLikes.likes post)) eqn:Hc.
  - apply contains_true_In in Hc.
    unfold likes_consistent.
    cbn [PostLikes.unlike PostLikes.likes PostLikes.likes_count
         PostLikes.user_id].
    split.
    { split; [now apply NoDup_filter|].
      cbn [PostLikes.likes PostLikes.likes_count].
      rewrite Hcount. rewrite <- (pull_present_length uid _ Hnd Hc). lia. }
    split.
    { rewrite pull_members. split; [intros [_ Hne]; congruence|tauto]. }
    split.
    { intros x Hne. rewrite pull_members. tauto. }
    split; [reflexivity|]. split; [reflexivity|].
    intros d Hin Hq. now apply update_one_other.
  - apply contains_false_not_In in Hc.
    unfold likes_consistent.
    cbn [PostLikes.like PostLikes.likes PostLikes.likes_count
         PostLikes.user_id].
    split.
    { split.
      - cbn [PostLikes.likes].
        apply (Permutation_NoDup (Permutation_cons_append _ uid)).
        now constructor.
      - cbn [PostLikes.likes PostLikes.likes_count].
        rewrite Hcount, length_app. simpl. lia. }
    split.
    { rewrite in_app_iff. simpl. tauto. }
    split.
    { intros x Hne. rewrite in_app_iff. simpl. split; [|tauto].
      intros [H|[H|[]]]; [assumption|congruence]. }
    split; [reflexivity|]. split; [reflexivity|].
    intros d Hin Hq. now apply update_one_other.
Qed.

Lemma like_post_toggles_witness :
  exists post',
    BaseModel.find_one (PostLikes.by_post_id "p-1")
      (snd (PostLikes.like_post liked_posts "p-1" "u-bob")) = Some post'
    /\ PostLikes.likes_count post' = 1.
Proof.
  destruct (like_post_toggles liked_posts "p-1" "u-bob"
              (PostLikes.mk "p-1" "u-alice" [ "u-bob"; "u-carol" ] 2))
    as (post' & _ & Hf & _ & _ & _ & Hcount & _).
  - reflexivity.
  - split; [|reflexivity].
    repeat constructor; simpl; intuition discriminate.
  - exists post'. split; [exact Hf|exact Hcount].
Defined.

Lemma unlike_like_id uid d :
  ~ In uid (PostLikes.likes d) ->
  PostLikes.unlike uid (PostLikes.like uid d) = d.
Proof.
  intros Hnin. destruct d as [pid owner likes count].
  unfold PostLikes.unlike, PostLikes.like. simpl in *.
  rewrite filter_app, (pull_absent uid likes Hnin). simpl.
  rewrite String.eqb_refl. simpl. rewrite app_nil_r.
  f_equal. lia.
Qed.

(** X11.  Two calls of [like_post] by the same user undo each other: a like
    followed by an unlike gives back the collection exactly as it was. *)
Theorem like_then_unlike_restores c pid uid post :
  BaseModel.find_one (PostLikes.by_post_id pid) c = Some post ->
  ~ In uid (PostLikes.likes post) ->
  snd (PostLikes.like_post (snd (PostLikes.like_post c pid uid)) pid uid) = c.
Proof.
  intros Hf Hnin.
  destruct (like_post_step c pid uid post Hf) as [Heq Hfound].
  apply contains_false_not_In in Hnin as Hc. rewrite Hc in Heq, Hfound.
  rewrite Heq. cbn [snd].
  destruct (like_post_step _ pid uid _ Hfound) as [Heq2 _].
  assert (Py.contains uid (PostLikes.likes (PostLikes.like uid post)) = true)
    as Hc2.
  { apply contains_true_In. simpl. apply in_app_iff. right. now left. }
  rewrite Hc2 in Heq2. rewrite Heq2. cbn [snd].
  rewrite update_one_twice by reflexivity.
  apply (update_one_fixed _ _ _ post Hf).
  now apply unlike_like_id.
Qed.

Lemma like_then_unlike_restores_witness :
  snd (PostLikes.like_post
         (snd (PostLikes.like_post liked_posts "p-2" "u-alice"))
         "p-2" "u-alice")
  = liked_posts.
Proof.
  apply (like_then_unlike_restores liked_posts "p-2" "u-alice"
           (PostLikes.mk "p-2" "u-bob" [] 0)).
  - reflexivity.
  - simpl. tauto.
Defined.

Lemma likes_total_cons owner d c :
  likes_total owner (d :: c)
  = (if String.eqb (PostLikes.user_id d) owner
     then PostLikes.likes_count d else 0)
    + likes_total owner c.
Proof.
  unfold likes_total. rewrite !sum_likes_sum. simpl.
  unfold Post.by_user_id at 1. simpl.
  destruct (String.eqb (PostLikes.user_id d) owner); simpl; lia.
Qed.

Lemma likes_total_update owner pid (f : PostLikes.doc -> PostLikes.doc)
  (k : Z) c post :
  (forall d, PostLikes.user_id (f d) = PostLikes.user_id d) ->
  (forall d, PostLikes.likes_count (f d) = PostLikes.likes_count d + k) ->
  BaseModel.find_one (PostLikes.by_post_id pid) c = Some post ->
  likes_total owner (BaseModel.update_one (PostLikes.by_post_id pid) f c)
  = likes_total owner c
    + (if String.eqb (PostLikes.user_id post) owner then k else 0).
Proof.
  intros Hid Hk. induction c as [|x c IH]; simpl; [discriminate|].
  destruct (PostLikes.by_post_id pid x) eqn:Hq.
  - intros [= ->]. rewrite !likes_total_cons, Hid, Hk.
    destruct (String.eqb (PostLikes.user_id post) owner); lia.
  - intros Hf. rewrite !likes_total_cons, (IH Hf). lia.
Qed.

(** X12.  A like is worth one unit of the 'likes_received' quantity to the
    post's owner and to nobody else: [like_post] raises the sum of
    [likes_count] over the owner's posts by one when the caller had not
    liked the post and lowers it by one when the caller had, and the sum
    over any other user's posts does not move. *)
Theorem like_post_moves_owner_total c pid uid post :
  BaseModel.find_one (PostLikes.by_post_id pid) c = Some post ->
  likes_total (PostLikes.user_id post) (snd (PostLikes.like_post c pid uid))
  = likes_total (PostLikes.user_id post) c
    + (if Py.contains uid (PostLikes.likes post) then -1 else 1)
  /\ forall other,
       other <> PostLikes.user_id post ->
       likes_total other (snd (PostLikes.like_post c pid uid))
       = likes_total other c.
Proof.
  intros Hf.
  destruct (like_post_step c pid uid post Hf) as [Heq _].
  rewrite Heq. cbn [snd].
  destruct (Py.contains uid (PostLikes.likes post)).
  - split.
    + rewrite (likes_total_update _ pid (PostLikes.unlike uid) (-1) c post);
        try reflexivity; try assumption.
      now rewrite String.eqb_refl.
    + intros other Hne.
      rewrite (likes_total_update _ pid (PostLikes.unlike uid) (-1) c post);
        try reflexivity; try assumption.
      destruct (String.eqb_spec (PostLikes.user_id post) other);
        [congruence|lia].
  - split.
    + rewrite (likes_total_update _ pid (PostLikes.like uid) 1 c post);
        try reflexivity; try assumption.
      now rewrite String.eqb_refl.
    + intros other Hne.
      rewrite (likes_total_update _ pid (PostLikes.like uid) 1 c post);
        try reflexivity; try assumption.
      destruct (String.eqb_spec (PostLikes.user_id post) other);
        [congruence|lia].
Qed.

Lemma like_post_moves_owner_total_witness :
  likes_total "u-alice" (snd (PostLikes.like_post liked_posts "p-1" "u-dave"))
  = likes_total "u-alice" liked_posts + 1.
Proof.
  destruct (like_post_moves_owner_total liked_posts "p-1" "u-dave"
              (PostLikes.mk "p-1" "u-alice" [ "u-bob"; "u-carol" ] 2))
    as (H & _).
  - reflexivity.
  - exact H.
Defined.

(** X13.  [verify_report] records a user's verification at most once.  On a
    report that exists with consistent bookkeeping it returns True, the user
    is a verifier afterwards, the counter rises by one only on the user's
    first verification, the bookkeeping stays consistent, and a repeated
    call changes nothing more. *)
Theorem verify_report_once c rid uid report :
  BaseModel.find_one (ReportMarks.by_report_id rid) c = Some report ->
  verifications_consistent report ->
  let c' := snd (ReportMarks.verify_report c rid uid) in
  exists report',
    fst (ReportMarks.verify_report c rid uid) = true
    /\ BaseModel.find_one (ReportMarks.by_report_id rid) c' = Some report'
    /\ verifications_consistent report'
    /\ count_occ string_dec (ReportMarks.verifications report') uid = 1%nat
    /\ ReportMarks.verification_count report'
       = ReportMarks.verification_count report
         + (if Py.contains uid (ReportMarks.verifications report)
            then 0 else 1)
    /\ ReportMarks.verify_report c' rid uid = (true, c').
Proof.
  intros Hf [Hnd Hcount] c'. subst c'.
  destruct (Py.contains uid (ReportMarks.verifications report)) eqn:Hc.
  - assert (ReportMarks.verify_report c rid uid = (true, c)) as Heq.
    { unfold ReportMarks.verify_report. now rewrite Hf, Hc. }
    rewrite Heq. cbn [fst snd].
    exists report. apply contains_true_In in Hc.
    split; [reflexivity|]. split; [exact Hf|].
    split; [now split|].
    split; [now apply NoDup_count_occ'|].
    split; [lia|exact Heq].
  - assert (ReportMarks.verify_report c rid uid
            = (true, BaseModel.update_one (ReportMarks.by_report_id rid)
                       (ReportMarks.verify uid) c)) as Heq.
    { unfold ReportMarks.verify_report. now rewrite Hf, Hc. }
    rewrite Heq. cbn [fst snd].
    apply contains_false_not_In in Hc.
    assert (BaseModel.find_one (ReportMarks.by_report_id rid)
              (BaseModel.update_one (ReportMarks.by_report_id rid)
                 (ReportMarks.verify uid) c)
            = Some (ReportMarks.verify uid report)) as Hfound.
    { rewrite find_one_update_one by reflexivity. now rewrite Hf. }
    exists (ReportMarks.verify uid report).
    split; [reflexivity|]. split; [exact Hfound|].
    assert (NoDup (ReportMarks.verifications report ++ [uid])) as Hnd'.
    { apply (Permutation_NoDup (Permutation_cons_append _ uid)).
      now constructor. }
    split.
    { split; [exact Hnd'|].
      cbn [ReportMarks.verify ReportMarks.verifications
           ReportMarks.verification_count].
      rewrite Hcount, length_app. simpl. lia. }
    split.
    { cbn [ReportMarks.verify ReportMarks.verifications].
      now apply count_occ_appended_once. }
    split; [reflexivity|].
    unfold ReportMarks.verify_report. rewrite Hfound.
    assert (Py.contains uid
              (ReportMarks.verifications (ReportMarks.verify uid report))
            = true) as ->.
    { apply contains_true_In. simpl. apply in_app_iff. right. now left. }
    reflexivity.
Qed.

Lemma verify_report_once_witness :
  ReportMarks.verify_report
    (snd (ReportMarks.verify_report verified_reports "q-1" "u-carol"))
    "q-1" "u-carol"
  = (true, [ ReportMarks.mk "q-1" "u-alice" [ "u-bob"; "u-carol" ] 2 ]).
Proof.
  destruct (verify_report_once verified_reports "q-1" "u-carol"
              (ReportMarks.mk "q-1" "u-alice" [ "u-bob" ] 1))
    as (report' & _ & _ & _ & _ & _ & H).
  - reflexivity.
  - split; [|reflexivity]. repeat constructor. simpl. tauto.
  - exact H.
Defined.

(* ================================================================== *)
(** * Marking notifications read *)
(* ================================================================== *)

Lemma count_after_map {D : Type} (q : D -> bool) (g : D -> D) (l : list D) :
  (forall d, q (g d) = q d) ->
  BaseModel.count_documents q (map g l) = BaseModel.count_documents q l.
Proof.
  intros Hq. unfold BaseModel.count_documents. f_equal.
  induction l as [|x l IH]; simpl; [reflexivity|].
  rewrite Hq. destruct (q x); simpl; congruence.
Qed.

Lemma count_none {D : Type} (q : D -> bool) (l : list D) :
  (forall d, In d l -> q d = false) -> BaseModel.count_documents q l = 0.
Proof.
  intros Hq. unfold BaseModel.count_documents.
  induction l as [|x l IH]; simpl; [reflexivity|].
  rewrite (Hq x) by now left. apply IH. intros d Hd. apply Hq. now right.
Qed.

(** X14.  [mark_all_notifications_read], called by a user for the user's
    own id, reports exactly the number of that user's unread notifications,
    leaves none of them unread, and changes nobody else's unread count nor
    any other collection; asked again at once it reports 0. *)
Theorem mark_all_read_clears_own email uid db caller :
  BaseModel.find_one (User.by_email email) (users db) = Some caller ->
  User.user_id caller = uid ->
  exists db',
    mark_all_notifications_read email uid db
    = (reply_success (unread_count uid db) 200, db')
    /\ unread_count uid db' = 0
    /\ (forall other, other <> uid ->
          unread_count other db' = unread_count other db)
    /\ List.length (notifications db') = List.length (notifications db)
    /\ users db' = users db /\ rewards db' = rewards db
    /\ posts db' = posts db /\ reports db' = reports db
    /\ bills db' = bills db
    /\ fst (mark_all_notifications_read email uid db') = reply_success 0 200.
Proof.
  intros Hu Hid.
  assert (forall d0 : DB,
             users d0 = users db ->
             mark_all_notifications_read email uid d0
             = (reply_success (unread_count uid d0) 200,
                with_notifications
                  (map (fun d => if unread_of uid d then set_read d else d)
                     (notifications d0)) d0)) as Hrun.
  { intros d0 Hd0. unfold mark_all_notifications_read.
    rewrite Hd0, Hu, Hid, String.eqb_refl. reflexivity. }
  eexists. split; [apply Hrun; reflexivity|].
  cbn [with_notifications users rewards posts reports bills notifications].
  assert (unread_count uid
            (with_notifications
               (map (fun d => if unread_of uid d then set_read d else d)
                  (notifications db)) db) = 0) as Hzero.
  { unfold unread_count. cbn [with_notifications notifications].
    apply count_none. intros d Hd. apply in_map_iff in Hd.
    destruct Hd as (d0 & <- & _).
    destruct (unread_of uid d0) eqn:Hun; [|exact Hun].
    unfold unread_of, set_read. simpl. apply andb_false_r. }
  split; [exact Hzero|].
  split.
  { intros other Hne. unfold unread_count.
    cbn [with_notifications notifications].
    apply count_after_map. intros d.
    destruct (unread_of uid d) eqn:Hun; [|reflexivity].
    unfold unread_of in *. simpl.
    apply andb_true_iff in Hun. destruct Hun as [Hd _].
    apply String.eqb_eq in Hd. rewrite Hd.
    destruct (String.eqb_spec uid other); [congruence|reflexivity]. }
  split; [apply length_map|].
  repeat (split; [reflexivity|]).
  rewrite Hrun by reflexivity. cbn [fst]. now rewrite Hzero.
Qed.

Lemma mark_all_read_clears_own_witness :
  fst (mark_all_notifications_read "alice@example.org" "u-alice"
         (with_notifications inbox_example db_example))
  = reply_success 1 200.
Proof.
  destruct (mark_all_read_clears_own "alice@example.org" "u-alice"
              (with_notifications inbox_example db_example) alice)
    as (db' & H & _).
  - reflexivity.
  - reflexivity.
  - rewrite H. reflexivity.
Defined.

Example mark_all_read_refuses_others :
  mark_all_notifications_read "bob@example.org" "u-alice"
    (with_notifications inbox_example db_example)
  = (reply_error (Text "Unauthorized to mark these notifications") 403,
     with_notifications inbox_example db_example).
Proof. reflexivity. Qed.

(* ================================================================== *)
(** * Creating a report, and the level invariant across handlers *)
(* ================================================================== *)

(** X15.  A [create_report] by a known user with a JSON body stores one
    report owned by the caller with no likes, so the caller's report count
    rises by one.  When the caller's points plus 20 fit in 64 bits it
    answers 201 with the new report id and credits the caller's document
    with 20 points, the level recomputed from the new points, and 5.0 kg of
    carbon; badges are kept.  When they do not fit, the award is refused by
    the store's encoder: the answer is the handler's 500 and the users
    collection is as it was. *)
Theorem create_report_credits rid email body db user :
  BaseModel.find_one (User.by_email email) (users db) = Some user ->
  let uid := User.user_id user in
  let db' := snd (create_report rid email (Some body) db) in
  reports db' = (reports db ++ [Report.mk rid uid 0])%list
  /\ BaseModel.count_documents (Report.by_user_id uid) (reports db')
     = BaseModel.count_documents (Report.by_user_id uid) (reports db) + 1
  /\ exists before,
       BaseModel.find_one (User.by_user_id uid) (users db) = Some before
       /\ if Bson.fits_int64 (User.points before + 20) then
            fst (create_report rid email (Some body) db)
            = reply_success rid 201
            /\ BaseModel.find_one (User.by_user_id uid) (users db')
               = Some (User.mk (User.user_id before) (User.email before)
                         (User.points before + 20)
                         (Z.max 1 ((User.points before + 20) / 100))
                         (User.badges before)
                         (User.carbon_footprint_saved before + 5.0)%float)
          else
            fst (create_report rid email (Some body) db)
            = reply_error (Failed "Failed to create report" Py.OverflowError)
                500
            /\ users db' = users db.
Proof.
  intros Hu uid db'. subst db'.
  pose proof (find_one_some _ _ _ Hu) as [Hin _].
  destruct (find_one_exists (User.by_user_id uid) (users db) user Hin)
    as [before Hb].
  { unfold User.by_user_id. apply String.eqb_refl. }
  assert (forall rs : list Report.doc,
             BaseModel.count_documents (Report.by_user_id uid)
               (BaseModel.insert_one (Report.mk rid uid 0) rs)
             = BaseModel.count_documents (Report.by_user_id uid) rs + 1)
    as Hcount.
  { intros rs. unfold BaseModel.count_documents, BaseModel.insert_one.
    rewrite filter_app, length_app. simpl.
    unfold Report.by_user_id at 2. simpl. rewrite String.eqb_refl.
    simpl. lia. }
  unfold create_report. rewrite Hu. fold uid.
  cbn [with_reports with_users users reports].
  destruct (Bson.fits_int64 (User.points before + 20)) eqn:Hfit.
  - rewrite (add_points_found _ _ _ _ Hb Hfit).
    cbn [fst snd with_reports with_users users reports].
    split; [reflexivity|]. split; [apply Hcount|].
    exists before. split; [exact Hb|]. rewrite Hfit.
    split; [reflexivity|].
    rewrite find_one_update_one by reflexivity.
    rewrite find_one_update_one by reflexivity.
    now rewrite Hb.
  - rewrite (add_points_overflow _ _ _ _ Hb Hfit).
    cbn [fst snd with_reports with_users users reports].
    split; [reflexivity|]. split; [apply Hcount|].
    exists before. split; [exact Hb|]. rewrite Hfit.
    split; reflexivity.
Qed.

Lemma create_report_credits_witness :
  BaseModel.find_one (User.by_user_id "u-bob")
    (users (snd (create_report "q-9" "bob@example.org"
                   (Some (ReportBody.mk None None None None None))
                   db_example)))
  = Some (User.mk "u-bob" "bob@example.org" 60 1 [ "Eco Hero" ] 5%float).
Proof.
  destruct (create_report_credits "q-9" "bob@example.org"
              (ReportBody.mk None None None None None) db_example bob)
    as (_ & _ & before & Hb & Ha).
  - reflexivity.
  - vm_compute in Hb. injection Hb as <-.
    change (Bson.fits_int64 (User.points bob + 20)) with true in Ha.
    exact (proj2 Ha).
Defined.

Example create_report_without_body :
  create_report "q-9" "bob@example.org" None db_example
  = (reply_error (Failed "Failed to create report" Py.AttributeError) 500,
     db_example).
Proof. reflexivity. Qed.

(** At the end of the 64-bit range the report is stored, the award is
    refused by the store's encoder, and the answer is the handler's 500. *)
Example create_report_points_overflow :
  let rich :=
    User.mk "u-bob" "bob@example.org" 9223372036854775800 92233720368547758
      [] 0%float in
  create_report "q-9" "bob@example.org"
    (Some (ReportBody.mk None None None None None))
    (with_users [ rich ] db_example)
  = (reply_error (Failed "Failed to create report" Py.OverflowError) 500,
     with_reports (reports db_example ++ [ Report.mk "q-9" "u-bob" 0 ])%list
       (with_users [ rich ] db_example)).
Proof. vm_compute. reflexivity. Qed.

Lemma update_one_keeps {D : Type} (P : D -> Prop) (q : D -> bool)
  (f : D -> D) (c : list D) :
  (forall d, P d -> P (f d)) ->
  Forall P c -> Forall P (BaseModel.update_one q f c).
Proof.
  intros Hf. induction 1 as [|x c Hx Hc IH]; simpl; [constructor|].
  destruct (q x); constructor; auto.
Qed.

Lemma add_points_keeps_invariant c uid pts :
  ledger_invariant c -> ledger_invariant (snd (User.add_points c uid pts)).
Proof.
  intros Hinv. rewrite add_points_snd.
  destruct (BaseModel.find_one (User.by_user_id uid) c); [|exact Hinv].
  destruct (Bson.fits_int64 _); [|exact Hinv].
  apply update_one_keeps; [|exact Hinv].
  intros x _. reflexivity.
Qed.

Lemma inc_carbon_keeps_invariant c uid x :
  ledger_invariant c ->
  ledger_invariant
    (BaseModel.update_one (User.by_user_id uid) (User.inc_carbon x) c).
Proof.
  intros Hinv. apply update_one_keeps; [|exact Hinv].
  intros u Hu. exact Hu.
Qed.

(** X16.  The handlers that award points keep the ledger invariant.  If
    every user's stored level is [max(1, points // 100)], that is still so
    after any call of [add_points], after any manual bill entry and after
    any report creation, whatever the inputs and whether or not the request
    is accepted. *)
Theorem award_paths_keep_ledger_invariant db :
  ledger_invariant (users db) ->
  (forall uid pts,
      ledger_invariant (snd (User.add_points (users db) uid pts)))
  /\ (forall env email data,
        ledger_invariant (users (snd (manual_entry env email data db))))
  /\ (forall rid email body,
        ledger_invariant (users (snd (create_report rid email body db)))).
Proof.
  intros Hinv. split; [|split].
  - intros uid pts. now apply add_points_keeps_invariant.
  - intros env email data.
    destruct (BaseModel.find_one (User.by_email email) (users db))
      as [user|] eqn:Hu.
    2:{ rewrite manual_entry_refused_users; [exact Hinv|now left]. }
    destruct (validate_required_fields (BillData.json data) required_fields)
      as [m|] eqn:Hval.
    { rewrite manual_entry_refused_users; [exact Hinv|].
      right. left. congruence. }
    destruct (Py.contains (BillData.type data) valid_types) eqn:Hv.
    2:{ rewrite manual_entry_refused_users; [exact Hinv|now right; right]. }
    rewrite (manual_entry_users env db email data user Hu Hval Hv).
    destruct (entry_comparison env db user data) as [c|]; [|exact Hinv].
    destruct (Bill.usage_difference c <? 0)%float; [|exact Hinv].
    cbv zeta.
    destruct (Py.int (Py.abs (Bill.percentage_change c))).
    + apply add_points_keeps_invariant. now apply inc_carbon_keeps_invariant.
    + now apply inc_carbon_keeps_invariant.
  - intros rid email body. unfold create_report.
    destruct (BaseModel.find_one (User.by_email email) (users db))
      as [caller|]; [|exact Hinv].
    destruct body; [|exact Hinv].
    cbn [with_reports with_users users].
    pose proof (add_points_keeps_invariant (users db) (User.user_id caller)
                  20 Hinv) as Hap.
    destruct (User.add_points (users db) (User.user_id caller) 20)
      as [[flag|e] us]; cbn [snd with_users users] in *.
    + now apply inc_carbon_keeps_invariant.
    + exact Hap.
Qed.

Lemma award_paths_keep_ledger_invariant_witness :
  ledger_invariant
    (users (snd (manual_entry env_up "alice@example.org" entry_reduction
                   db_example))).
Proof.
  destruct (award_paths_keep_ledger_invariant db_example) as (_ & H & _).
  - repeat constructor.
  - apply H.
Defined.

(* ================================================================== *)
(** * Pagination *)
(* ================================================================== *)

Lemma slice_forward {A : Type} (l : list A) (start stop : Z) :
  0 <= start <= stop ->
  Cursor.slice l start stop
  = firstn (Z.to_nat (stop - start)) (skipn (Z.to_nat start) l).
Proof.
  intros Hr. unfold Cursor.slice.
  destruct (Z.ltb_spec start 0) as [?|_]; [lia|].
  destruct (Z.ltb_spec stop 0) as [?|_]; [lia|].
  set (len := Z.of_nat (List.length l)).
  destruct (Z.le_gt_cases len start) as [Hout|Hin].
  - rewrite (skipn_all2 (n := Z.to_nat start)) by lia.
    replace (Z.max 0 (Z.min len stop) - Z.max 0 (Z.min len start)) with 0
      by lia.
    now rewrite firstn_nil.
  - replace (Z.max 0 (Z.min len start)) with start by lia.
    destruct (Z.le_gt_cases stop len) as [Hs|Hs].
    + now replace (Z.max 0 (Z.min len stop)) with stop by lia.
    + replace (Z.max 0 (Z.min len stop)) with len by lia.
      rewrite !firstn_all2; [reflexivity| |]; rewrite length_skipn; lia.
Qed.

Lemma firstn_then_next {A : Type} (a b : nat) (l : list A) :
  (firstn a l ++ firstn b (skipn a l))%list = firstn (a + b) l.
Proof.
  revert l. induction a as [|a IH]; intros l; [reflexivity|].
  destruct l as [|x l]; simpl.
  - now rewrite firstn_nil.
  - now rewrite IH.
Qed.

Lemma chunks_concat {A : Type} (n m : nat) (l : list A) :
  List.concat (map (fun j => firstn n (skipn (j * n) l)) (seq 0 m))
  = firstn (m * n) l.
Proof.
  induction m as [|m IH]; [reflexivity|].
  rewrite seq_S, map_app, List.concat_app, IH. simpl.
  rewrite app_nil_r, firstn_then_next. f_equal. lia.
Qed.

Lemma ceiling_division (total limit : Z) :
  0 <= total -> 1 <= limit ->
  let pages := (total + limit - 1) / limit in
  total <= pages * limit /\ (pages - 1) * limit < total + limit
  /\ (0 < total -> (pages - 1) * limit < total)
  /\ (total = 0 -> pages = 0).
Proof.
  intros Ht Hl pages.
  pose proof (Z.div_mod (total + limit - 1) limit ltac:(lia)) as Hdm.
  pose proof (Z.mod_pos_bound (total + limit - 1) limit ltac:(lia)) as Hr.
  fold pages in Hdm.
  repeat split; nia.
Qed.

(** The items of a page with a positive number and size. *)
Lemma paginate_results_data {A : Type} (results : list A) (page limit : Z) :
  1 <= page -> 1 <= limit ->
  page_data results limit page
  = firstn (Z.to_nat limit) (skipn (Z.to_nat ((page - 1) * limit)) results).
Proof.
  intros Hp Hl. unfold page_data, paginate_results.
  destruct (Z.eqb_spec limit 0) as [?|_]; [lia|].
  cbn [Page.data]. rewrite slice_forward by nia. f_equal. f_equal. lia.
Qed.

(** X17.  For a page number and a page size of at least 1,
    [paginate_results] returns the items at offsets
    [(page-1)*limit .. page*limit), never more than [limit] of them;
    [pages] is the ceiling of [total / limit]; [has_next] holds exactly on
    pages before the last, [has_prev] exactly on pages after the first, and
    the page is empty exactly when its number is beyond [pages]. *)
Theorem paginate_results_metadata {A : Type} (results : list A)
  (page limit : Z) :
  1 <= page -> 1 <= limit ->
  exists p,
    paginate_results results page limit = Some p
    /\ Page.data p
       = firstn (Z.to_nat limit)
           (skipn (Z.to_nat ((page - 1) * limit)) results)
    /\ (List.length (Page.data p) <= Z.to_nat limit)%nat
    /\ Page.total p = Z.of_nat (List.length results)
    /\ Page.total p <= Page.pages p * limit
    /\ (0 < Page.total p -> (Page.pages p - 1) * limit < Page.total p)
    /\ (Page.total p = 0 -> Page.pages p = 0)
    /\ (Page.has_next p = true <-> page < Page.pages p)
    /\ (Page.has_prev p = true <-> 1 < page)
    /\ (Page.data p = [] <-> Page.pages p < page).
Proof.
  intros Hp Hl. unfold paginate_results.
  destruct (Z.eqb_spec limit 0) as [?|_]; [lia|].
  eexists. split; [reflexivity|].
  cbn [Page.data Page.total Page.pages Page.has_next Page.has_prev].
  set (total := Z.of_nat (List.length results)).
  assert (0 <= total) as Ht by (unfold total; lia).
  destruct (ceiling_division total limit Ht Hl) as (H1 & H2 & H3 & H4).
  set (pages := (total + limit - 1) / limit) in *.
  assert (Cursor.slice results ((page - 1) * limit)
            ((page - 1) * limit + limit)
          = firstn (Z.to_nat limit)
              (skipn (Z.to_nat ((page - 1) * limit)) results)) as Hdata.
  { rewrite slice_forward by nia. f_equal. f_equal. lia. }
  rewrite Hdata.
  split; [reflexivity|].
  split; [apply firstn_le_length|].
  split; [reflexivity|].
  split; [exact H1|]. split; [exact H3|]. split; [exact H4|].
  split; [rewrite Z.ltb_lt; nia|].
  split; [rewrite Z.ltb_lt; nia|].
  split.
  - intros Hempty.
    assert (List.length
              (firstn (Z.to_nat limit)
                 (skipn (Z.to_nat ((page - 1) * limit)) results)) = 0%nat)
      as Hlen by now rewrite Hempty.
    rewrite length_firstn, length_skipn in Hlen. unfold total in *. nia.
  - intros Hbeyond.
    rewrite (skipn_all2 (n := Z.to_nat ((page - 1) * limit)));
      [apply firstn_nil|].
    unfold total in *. nia.
Qed.

Lemma paginate_results_metadata_witness :
  exists p,
    paginate_results [ 1; 2; 3; 4; 5 ] 2 2 = Some p
    /\ Page.data p = [ 3; 4 ].
Proof.
  destruct (paginate_results_metadata [ 1; 2; 3; 4; 5 ] 2 2)
    as (p & Hp & Hd & _).
  - lia.
  - lia.
  - exists p. split; [exact Hp|exact Hd].
Defined.

(** X18.  The pages partition the results: for a page size of at least 1,
    the items of pages 1, 2, ..., [pages], one after the other, are the
    results themselves, each once and in order. *)
Theorem pages_partition_results {A : Type} (results : list A) (limit : Z) :
  1 <= limit ->
  let pages := (Z.of_nat (List.length results) + limit - 1) / limit in
  List.concat (map (fun k => page_data results limit (Z.of_nat k))
            (seq 1 (Z.to_nat pages)))
  = results.
Proof.
  intros Hl pages.
  assert (0 <= Z.of_nat (List.length results)) as Ht by lia.
  destruct (ceiling_division _ limit Ht Hl) as (H1 & _).
  fold pages in H1.
  rewrite <- seq_shift, map_map.
  rewrite (map_ext _
             (fun j => firstn (Z.to_nat limit)
                         (skipn (j * Z.to_nat limit) results))).
  - rewrite chunks_concat. apply firstn_all2. nia.
  - intros j. rewrite paginate_results_data by lia. f_equal. f_equal. nia.
Qed.

Lemma pages_partition_results_witness :
  List.concat (map (fun k => page_data [ 1; 2; 3; 4; 5 ] 2 (Z.of_nat k))
            (seq 1 3))
  = [ 1; 2; 3; 4; 5 ].
Proof.
  apply (pages_partition_results [ 1; 2; 3; 4; 5 ] 2). lia.
Defined.

(** X19.  A negative page number does not give an empty page: when the
    results hold at least [(1 - page) * limit] items, [paginate_results]
    returns [limit] items counted from the end of the list (Python's
    negative slice indices), and reports [has_next] true and [has_prev]
    false. *)
Theorem paginate_results_negative_page {A : Type} (results : list A)
  (page limit : Z) :
  page < 0 -> 1 <= limit ->
  (1 - page) * limit <= Z.of_nat (List.length results) ->
  exists p,
    paginate_results results page limit = Some p
    /\ Page.data p
       = firstn (Z.to_nat limit)
           (skipn (Z.to_nat (Z.of_nat (List.length results)
                             - (1 - page) * limit)) results)
    /\ List.length (Page.data p) = Z.to_nat limit
    /\ Page.has_next p = true
    /\ Page.has_prev p = false.
Proof.
  intros Hp Hl Henough. unfold paginate_results.
  destruct (Z.eqb_spec limit 0) as [?|_]; [lia|].
  eexists. split; [reflexivity|].
  cbn [Page.data Page.has_next Page.has_prev].
  set (len := Z.of_nat (List.length results)) in *.
  assert (Cursor.slice results ((page - 1) * limit)
            ((page - 1) * limit + limit)
          = firstn (Z.to_nat limit)
              (skipn (Z.to_nat (len - (1 - page) * limit)) results))
    as Hdata.
  { unfold Cursor.slice. fold len.
    destruct (Z.ltb_spec ((page - 1) * limit) 0) as [_|?]; [|nia].
    destruct (Z.ltb_spec ((page - 1) * limit + limit) 0) as [_|?]; [|nia].
    f_equal; [|f_equal]; nia. }
  rewrite Hdata.
  split; [reflexivity|].
  split.
  { rewrite length_firstn, length_skipn. unfold len in *. nia. }
  split; [apply Z.ltb_lt; nia|apply Z.ltb_ge; nia].
Qed.

Lemma paginate_results_negative_page_witness :
  exists p,
    paginate_results [ 1; 2; 3; 4; 5 ] (-1) 2 = Some p
    /\ Page.data p = [ 2; 3 ].
Proof.
  destruct (paginate_results_negative_page [ 1; 2; 3; 4; 5 ] (-1) 2)
    as (p & Hp & Hd & _).
  - lia.
  - lia.
  - simpl. lia.
  - exists p. split; [exact Hp|exact Hd].
Defined.

Example paginate_edges :
  paginate_results [ 1; 2; 3 ] 1 0 = None
  /\ page_data [ 1; 2; 3 ] 2 0 = []
  /\ page_data [ 1; 2; 3 ] 2 3 = [].
Proof. repeat split. Qed.

(* ================================================================== *)
(** * Repeated claims, accumulated awards, and isolation between users *)
(* ================================================================== *)

(** With unique user ids, an update addressed to the id of the document
    found by e-mail rewrites that very document. *)
Lemma find_by_email_after_update c email user (f : User.doc -> User.doc) :
  NoDup (map User.user_id c) ->
  (forall d, User.email (f d) = User.email d) ->
  BaseModel.find_one (User.by_email email) c = Some user ->
  BaseModel.find_one (User.by_email email)
    (BaseModel.update_one (User.by_user_id (User.user_id user)) f c)
  = Some (f user).
Proof.
  intros Hnd Hemail. induction c as [|x c IH]; simpl; [discriminate|].
  inversion Hnd as [|? ? Hnotin Hnd']; subst.
  destruct (User.by_email email x) eqn:Hx.
  - intros [= ->]. unfold User.by_user_id at 1. rewrite String.eqb_refl.
    simpl. unfold User.by_email in *. now rewrite Hemail, Hx.
  - intros Hf.
    destruct (User.by_user_id (User.user_id user) x) eqn:Hid.
    + exfalso. apply Hnotin.
      unfold User.by_user_id in Hid. apply String.eqb_eq in Hid.
      rewrite Hid. apply in_map. now apply find_one_some in Hf.
    + simpl. rewrite Hx. now apply IH.
Qed.

(** A successful answer means that every check passed. *)
Lemma claim_success_checks env db email rid user reward :
  BaseModel.find_one (User.by_email email) (users db) = Some user ->
  BaseModel.find_one (Reward.by_reward_id rid) (rewards db) = Some reward ->
  fst (claim_reward env email rid db) = claim_success user reward ->
  (User.points user <? Reward.points_required reward) = false
  /\ already_claimed user reward = false
  /\ verify_task_completion db (User.user_id user) reward = true
  /\ snd (claim_reward env email rid db)
     = with_notifications
         (BaseModel.insert_one (claim_notification env user rid reward)
            (notifications db))
         (with_users
            (BaseModel.update_one (User.by_user_id (User.user_id user))
               (claim_update user reward) (users db)) db).
Proof.
  intros Hu Hr Hok.
  destruct (User.points user <? Reward.points_required reward) eqn:Hp.
  { rewrite (claim_reward_refused_points _ _ _ _ _ _ Hu Hr Hp) in Hok.
    discriminate. }
  destruct (already_claimed user reward) eqn:Hc.
  { rewrite (claim_reward_refused_badge _ _ _ _ _ _ Hu Hr Hp Hc) in Hok.
    discriminate. }
  destruct (verify_task_completion db (User.user_id user) reward) eqn:Ht.
  2:{ rewrite (claim_reward_refused_task _ _ _ _ _ _ Hu Hr Hp Hc Ht) in Hok.
      discriminate. }
  repeat (split; [reflexivity|]).
  rewrite (claim_reward_checks_pass env db email rid user reward
             Hu Hr Hp Hc Ht) in *.
  cbv zeta in *.
  destruct (notification_sink env _); [reflexivity|discriminate].
Qed.

(** X20.  A badge cannot be claimed twice in a row.  With unique user ids,
    once a claim of a reward that carries a badge has succeeded, a second
    claim of the same reward by the same user is refused, either for
    insufficient points or as already claimed, and writes nothing. *)
Theorem second_claim_refused env env2 db email rid user reward b :
  NoDup (map User.user_id (users db)) ->
  BaseModel.find_one (User.by_email email) (users db) = Some user ->
  BaseModel.find_one (Reward.by_reward_id rid) (rewards db) = Some reward ->
  reward_badge reward = Some b ->
  fst (claim_reward env email rid db) = claim_success user reward ->
  let db' := snd (claim_reward env email rid db) in
  claim_reward env2 email rid db'
  = (error_response
       (InsufficientPoints (Reward.points_required reward)
          (User.points user - Reward.points_required reward)) 400, db')
  \/ claim_reward env2 email rid db'
     = (error_response RewardAlreadyClaimed 400, db').
Proof.
  intros Hnd Hu Hr Hb Hok db'. subst db'.
  destruct (claim_success_checks env db email rid user reward Hu Hr Hok)
    as (_ & _ & _ & Hdb).
  rewrite Hdb.
  set (db' := with_notifications _ _).
  assert (BaseModel.find_one (User.by_email email) (users db')
          = Some (claim_update user reward user)) as Hu'.
  { unfold db'. cbn [with_notifications with_users users].
    now apply find_by_email_after_update. }
  assert (BaseModel.find_one (Reward.by_reward_id rid) (rewards db')
          = Some reward) as Hr' by exact Hr.
  assert (User.points (claim_update user reward user)
          = User.points user - Reward.points_required reward) as Hpts
    by reflexivity.
  destruct (User.points (claim_update user reward user)
            <? Reward.points_required reward) eqn:Hp.
  - left.
    rewrite (claim_reward_refused_points _ _ _ _ _ _ Hu' Hr' Hp).
    now rewrite Hpts.
  - right.
    apply (claim_reward_refused_badge _ _ _ _ _ _ Hu' Hr' Hp).
    unfold already_claimed. rewrite Hb.
    apply contains_true_In. rewrite claim_update_badges, Hb.
    apply in_app_iff. right. now left.
Qed.

Lemma second_claim_refused_witness :
  exists m,
    fst (claim_reward env_up "alice@example.org" "r-hero"
           (snd (claim_reward env_up "alice@example.org" "r-hero"
                   db_example)))
    = error_response m 400.
Proof.
  destruct (second_claim_refused env_up env_up db_example
              "alice@example.org" "r-hero" alice reward_hero "Eco Hero")
    as [H|H].
  - repeat constructor; simpl; intuition discriminate.
  - reflexivity.
  - reflexivity.
  - reflexivity.
  - vm_compute. reflexivity.
  - eexists. rewrite H. reflexivity.
  - eexists. rewrite H. reflexivity.
Defined.

Lemma update_one_ext {D : Type} (q : D -> bool) (f g : D -> D) (c : list D) :
  (forall d, f d = g d) ->
  BaseModel.update_one q f c = BaseModel.update_one q g c.
Proof.
  intros Hfg. induction c as [|x c IH]; simpl; [reflexivity|].
  destruct (q x); [now rewrite Hfg|now rewrite IH].
Qed.

(** X21.  Awards accumulate within the 64-bit range: when the user's
    points fit in 64 bits after the first delta and after the second, two
    calls of [add_points] for that user leave the collection exactly as one
    call with the sum of the two deltas does, and return the same flag; the
    level depends on the final points only.  For an unknown user id the
    three calls all return false. *)
Theorem add_points_accumulates (c : list User.doc) (uid : string) (a b : Z) :
  (forall user,
      BaseModel.find_one (User.by_user_id uid) c = Some user ->
      Bson.fits_int64 (User.points user + a) = true
      /\ Bson.fits_int64 (User.points user + a + b) = true) ->
  User.add_points (snd (User.add_points c uid a)) uid b
  = User.add_points c uid (a + b).
Proof.
  intros Hfits.
  destruct (BaseModel.find_one (User.by_user_id uid) c) as [user|] eqn:Hf.
  - destruct (Hfits user eq_refl) as [Ha Hab].
    rewrite (add_points_found _ _ a _ Hf Ha). cbn [snd].
    assert (BaseModel.find_one (User.by_user_id uid)
              (BaseModel.update_one (User.by_user_id uid)
                 (User.set_points_level (User.points user + a)
                    (Z.max 1 ((User.points user + a) / 100))) c)
            = Some (User.set_points_level (User.points user + a)
                      (Z.max 1 ((User.points user + a) / 100)) user))
      as Hf1.
    { rewrite find_one_update_one by reflexivity. now rewrite Hf. }
    rewrite (add_points_found _ _ b _ Hf1 Hab).
    rewrite (add_points_found _ _ (a + b) _ Hf)
      by now rewrite Z.add_assoc.
    f_equal. rewrite update_one_twice by reflexivity.
    cbn [User.set_points_level User.points].
    replace (User.points user + a + b) with (User.points user + (a + b))
      by lia.
    apply update_one_ext. intros d. reflexivity.
  - rewrite (add_points_missing _ _ a Hf). cbn [snd].
    now rewrite !(add_points_missing _ _ _ Hf).
Qed.

Lemma add_points_accumulates_witness :
  User.add_points (snd (User.add_points [ alice; bob ] "u-bob" 170))
    "u-bob" (-250)
  = User.add_points [ alice; bob ] "u-bob" (-80).
Proof.
  apply (add_points_accumulates [ alice; bob ] "u-bob" 170 (-250)).
  intros user Hf. vm_compute in Hf. injection Hf as <-.
  split; reflexivity.
Defined.

(** Outside the range the two calls and the one call part: a first delta
    that is refused leaves the points where they were. *)
Example add_points_refused_then_added :
  exists stored,
    BaseModel.find_one (User.by_user_id "u-alice")
      (snd (User.add_points
              (snd (User.add_points [ alice; bob ] "u-alice"
                      9223372036854775808))
              "u-alice" (-9223372036854775808)))
    = Some stored
    /\ User.points stored = 300 - 9223372036854775808
    /\ User.add_points [ alice; bob ] "u-alice"
         (9223372036854775808 + -9223372036854775808)
       = (Py.Ok true, [ alice; bob ]).
Proof.
  eexists. split; [vm_compute; reflexivity|].
  split; vm_compute; reflexivity.
Qed.

(** A lookup is not disturbed by an update addressed to documents the
    lookup does not select. *)
Lemma find_one_update_elsewhere {D : Type} (q1 q2 : D -> bool) (f : D -> D)
  (c : list D) :
  (forall d, q1 d = true -> q2 d = false) ->
  (forall d, q2 (f d) = q2 d) ->
  BaseModel.find_one q2 (BaseModel.update_one q1 f c)
  = BaseModel.find_one q2 c.
Proof.
  intros Hdisj Hkey. induction c as [|x c IH]; simpl; [reflexivity|].
  destruct (q1 x) eqn:H1; simpl.
  - now rewrite Hkey, (Hdisj x H1).
  - now rewrite IH.
Qed.

Lemma other_user_id uid other d :
  other <> uid ->
  User.by_user_id uid d = true -> User.by_user_id other d = false.
Proof.
  unfold User.by_user_id. intros Hne Hd. apply String.eqb_eq in Hd.
  destruct (String.eqb_spec (User.user_id d) other); congruence.
Qed.

(** X22.  A manual entry touches its author only.  Whatever one user
    enters, the document found under any other user id is the same before
    and after, and so is the usage comparison of any other user for every
    resource type. *)
Theorem manual_entry_isolated env db email data user other :
  BaseModel.find_one (User.by_email email) (users db) = Some user ->
  other <> User.user_id user ->
  let db' := snd (manual_entry env email data db) in
  BaseModel.find_one (User.by_user_id other) (users db')
  = BaseModel.find_one (User.by_user_id other) (users db)
  /\ forall ty,
       Bill.get_usage_comparison (bills db') other ty
       = Bill.get_usage_comparison (bills db) other ty.
Proof.
  intros Hu Hne db'. subst db'.
  destruct (validate_required_fields (BillData.json data) required_fields)
    as [m|] eqn:Hval.
  { rewrite manual_entry_refused_users; [split; reflexivity|].
    right. left. congruence. }
  destruct (Py.contains (BillData.type data) valid_types) eqn:Hv.
  2:{ rewrite manual_entry_refused_users; [split; reflexivity|].
      now right; right. }
  split.
  - rewrite (manual_entry_users env db email data user Hu Hval Hv).
    destruct (entry_comparison env db user data) as [c|]; [|reflexivity].
    destruct (Bill.usage_difference c <? 0)%float; [|reflexivity].
    cbv zeta.
    assert (forall x,
               BaseModel.find_one (User.by_user_id other)
                 (BaseModel.update_one (User.by_user_id (User.user_id user))
                    (User.inc_carbon x) (users db))
               = BaseModel.find_one (User.by_user_id other) (users db))
      as Hinc.
    { intros x. apply find_one_update_elsewhere; [|reflexivity].
      intros d. now apply other_user_id. }
    destruct (Py.int (Py.abs (Bill.percentage_change c))); [|apply Hinc].
    rewrite add_points_snd.
    destruct (BaseModel.find_one (User.by_user_id (User.user_id user)) _);
      [|apply Hinc].
    destruct (Bson.fits_int64 _); [|apply Hinc].
    rewrite find_one_update_elsewhere; [apply Hinc| |reflexivity].
    intros x. now apply other_user_id.
  - intros ty.
    destruct (manual_entry_accepted env db email data user Hu Hval Hv)
      as (e & db' & Heq & Hbills).
    rewrite Heq. cbn [snd]. rewrite Hbills.
    rewrite !get_usage_comparison_sorted.
    unfold BaseModel.find, BaseModel.insert_one.
    rewrite filter_app. simpl.
    assert (Bill.by_user_and_type other ty (entered_bill env user data)
            = false) as ->.
    { unfold Bill.by_user_and_type, entered_bill. simpl.
      destruct (String.eqb_spec (User.user_id user) other);
        [congruence|reflexivity]. }
    now rewrite app_nil_r.
Qed.

Lemma manual_entry_isolated_witness :
  BaseModel.find_one (User.by_user_id "u-bob")
    (users (snd (manual_entry env_up "alice@example.org" entry_reduction
                   db_example)))
  = Some bob.
Proof.
  destruct (manual_entry_isolated env_up db_example "alice@example.org"
              entry_reduction alice "u-bob") as (H & _).
  - reflexivity.
  - discriminate.
  - rewrite H. reflexivity.
Defined.
